(** * Starlite: HTTP route handlers and the session middleware

    A shallow embedding of
    - [starlite/handlers/http_handlers.py]: HTTP method normalisation, the
      default status code, handler-function validation, the layered
      resolution of cookies, headers and hooks, and the memoised choice of a
      response handler;
    - [starlite/middleware/session/base.py]: the session middleware and the
      [send] wrapper it installs.

    Python exceptions become an error result, objects mutated in place
    become explicit state passing, dictionaries become [gmap]s and sets of
    strings become [gset]s.  Text is modelled as ASCII strings: [upper]
    is [str.upper] restricted to ASCII letters. *)

From Stdlib Require Import ZArith String Ascii List Bool Lia DecimalString.
From stdpp Require Import base gmap strings list.
Import ListNotations.

Open Scope string_scope.
Open Scope Z_scope.

(** ** Exceptions and fallible computations *)

Inductive Exception : Type :=
| ImproperlyConfiguredException (detail : string)
| ValidationException (detail : string)
| AttributeError (attribute : string).

Inductive Result (A : Type) : Type :=
| Ok (a : A)
| Raise (e : Exception).

Arguments Ok {A} a.
Arguments Raise {A} e.

#[global] Instance Result_ret : MRet Result := fun _ a => Ok a.
#[global] Instance Result_bind : MBind Result := fun _ _ f r =>
  match r with
  | Ok a => f a
  | Raise e => Raise e
  end.

(** ** Strings *)

Definition upper_ascii (c : ascii) : ascii :=
  let n := nat_of_ascii c in
  if ((97 <=? n) && (n <=? 122))%nat then ascii_of_nat (n - 32) else c.

Fixpoint upper (s : string) : string :=
  match s with
  | EmptyString => EmptyString
  | String c rest => String (upper_ascii c) (upper rest)
  end.

(** ** HTTP methods and status codes *)

(** Modelled from the spec: [starlite.enums.HttpMethod] is defined outside
    the modules embedded here.  It is a string enumeration (the source tests
    a bare member with [isinstance(http_methods, str)] and looks members up
    in a set of strings); each member's [value] is its upper-case name.  The
    members are the six methods of the semantic decorators and OPTIONS. *)
Inductive HttpMethod : Type :=
| DELETE | GET | HEAD | OPTIONS | PATCH | POST | PUT.

Definition HttpMethod_value (m : HttpMethod) : string :=
  match m with
  | DELETE => "DELETE"
  | GET => "GET"
  | HEAD => "HEAD"
  | OPTIONS => "OPTIONS"
  | PATCH => "PATCH"
  | POST => "POST"
  | PUT => "PUT"
  end.

Definition HttpMethod_members : list HttpMethod :=
  [DELETE; GET; HEAD; OPTIONS; PATCH; POST; PUT].

(** [HTTP_METHOD_NAMES = {m.value for m in HttpMethod}] *)
Definition HTTP_METHOD_NAMES : gset string :=
  list_to_set (map HttpMethod_value HttpMethod_members).

(** [starlite.status_codes] *)
Definition HTTP_200_OK : Z := 200.
Definition HTTP_201_CREATED : Z := 201.
Definition HTTP_204_NO_CONTENT : Z := 204.
Definition HTTP_304_NOT_MODIFIED : Z := 304.

(** One element of the [http_method] argument: a string or an enum member. *)
Inductive MethodToken : Type :=
| MethodStr (s : string)
| MethodEnum (m : HttpMethod).

(** The [http_method] argument: one token, or a sequence of tokens. *)
Inductive HttpMethodArg : Type :=
| SingleMethod (t : MethodToken)
| MethodSeq (ts : list MethodToken).

(** The tokens the loop of [_normalize_http_method] iterates over: a bare
    string (or enum member, itself a string) is first wrapped in a list. *)
Definition method_tokens (http_methods : HttpMethodArg) : list MethodToken :=
  match http_methods with
  | SingleMethod t => [t]
  | MethodSeq ts => ts
  end.

Definition method_name (method : MethodToken) : string :=
  match method with
  | MethodEnum m => upper (HttpMethod_value m)
  | MethodStr s => upper s
  end.

Fixpoint normalize_loop (methods : list MethodToken) (output : gset string)
  : Result (gset string) :=
  match methods with
  | [] => Ok output
  | method :: rest =>
      let name := method_name method in
      if bool_decide (name ∈ HTTP_METHOD_NAMES)
      then normalize_loop rest ({[name]} ∪ output)
      else Raise (ValidationException ("Invalid HTTP method: " ++ name))
  end.

Definition _normalize_http_method (http_methods : HttpMethodArg)
  : Result (gset string) :=
  normalize_loop (method_tokens http_methods) ∅.

Definition _get_default_status_code (http_methods : gset string) : Z :=
  if bool_decide (HttpMethod_value POST ∈ http_methods) then HTTP_201_CREATED
  else if bool_decide (HttpMethod_value DELETE ∈ http_methods) then HTTP_204_NO_CONTENT
  else HTTP_200_OK.

(** ** Classes, annotations and signatures *)

(** A Python class, identified by its name, with the names of all its
    proper ancestors and whether it defines an asynchronous [__call__]. *)
Record PyClass : Type := {
  cls_name : string;
  cls_ancestors : list string;
  cls_async_call : bool
}.

Definition issubclass (c : PyClass) (t_type : string) : bool :=
  String.eqb (cls_name c) t_type || existsb (String.eqb t_type) (cls_ancestors c).

(** The classes the handler code names. *)
Definition ResponseContainer : string := "ResponseContainer".
Definition Redirect : string := "Redirect".
Definition File : string := "File".
Definition Response : string := "Response".
Definition FileResponse : string := "FileResponse".

(** A return annotation as [inspect.Signature] reports it. *)
Inductive Annotation : Type :=
| SignatureEmpty                  (* [Signature.empty]: no annotation *)
| AnnNone                         (* [None] *)
| AnnString (s : string)          (* a string annotation, e.g. ["None"] *)
| AnnClass (c : PyClass)          (* a class *)
| AnnASGIApp                      (* the [ASGIApp] type alias *)
| AnnAnyStr                       (* [typing.AnyStr] *)
| AnnAsyncFunction (id : nat)     (* a coroutine function object *)
| AnnOther (id : nat).            (* any other annotation object *)

(** Modelled from the spec: [starlite.utils.predicates.is_class_and_subclass]
    is defined outside the modules embedded here; as its name and its uses
    say, it holds when the value is a class and a subclass of [t_type]. *)
Definition is_class_and_subclass (value : Annotation) (t_type : string) : bool :=
  match value with
  | AnnClass c => issubclass c t_type
  | _ => false
  end.

(** Modelled from the spec: [starlite.utils.is_async_callable] is defined outside
    the modules embedded here; it holds for coroutine functions and for callables
    whose [__call__] is one. *)
Definition is_async_callable (value : Annotation) : bool :=
  match value with
  | AnnAsyncFunction _ => true
  | AnnClass c => cls_async_call c
  | _ => false
  end.

Record Signature : Type := {
  return_annotation : Annotation;
  parameters : list string
}.

(** ** Media types *)

Inductive MediaType : Type := JSON | HTML | TEXT.

(** Modelled from the spec: [starlite.enums.MediaType] is defined outside the
    modules embedded here; it is a string enumeration of IANA media types. *)
Definition MediaType_value (m : MediaType) : string :=
  match m with
  | JSON => "application/json"
  | HTML => "text/html"
  | TEXT => "text/plain"
  end.

(** The [media_type] attribute: an enum member or a plain string. *)
Inductive MediaTypeValue : Type :=
| MediaTypeEnum (m : MediaType)
| MediaTypeStr (s : string).

Definition media_type_str (m : MediaTypeValue) : string :=
  match m with
  | MediaTypeEnum e => MediaType_value e
  | MediaTypeStr s => s
  end.

(** ** Cookies, headers and layers *)

(** Modelled from the spec: [starlite.datastructures.Cookie] is defined outside
    the modules embedded here.  A cookie has a key, a value and a
    documentation-only flag, and a resolved set of cookies is keyed by the
    cookie's key: two cookies with the same key are equal as set members. *)
Record Cookie : Type := {
  key : string;
  value : option string;
  documentation_only : bool
}.

Definition Cookie_eq (a b : Cookie) : bool := String.eqb (key a) (key b).

(** Modelled from the spec: [starlite.datastructures.ResponseHeader] is defined
    outside the modules embedded here; a header has a name, a value and a
    documentation-only flag. *)
Record ResponseHeader : Type := {
  name : string;
  header_value : option string;
  header_documentation_only : bool
}.

(** A [CacheControlHeader] or [ETag]: its [HEADER_NAME], the result of its
    [to_header ()] and its documentation-only flag. *)
Record Header : Type := {
  HEADER_NAME : string;
  to_header : string;
  model_documentation_only : bool
}.

(** A callable object (a hook or a background task), known by its identity. *)
Definition Callable : Type := nat.

Inductive AsyncCallable : Type :=
| AsyncCallableOf (fn : Callable).

(** What a layer may hold as [response_cookies]: a sequence of cookies or,
    when set by hand on an instance, a mapping from key to value. *)
Inductive LayerCookies : Type :=
| CookieSeq (cookies : list Cookie)
| CookieMapping (items : gmap string string).

Inductive LayerHeaders : Type :=
| HeaderSeq (headers : list ResponseHeader)
| HeaderMapping (items : gmap string string).

(** One layer of the ownership chain (application, router, controller or
    the handler itself) with the attributes the resolvers read. *)
Record Layer : Type := {
  response_class : option PyClass;
  response_headers : option LayerHeaders;
  response_cookies : option LayerCookies;
  before_request : option AsyncCallable;
  after_request : option AsyncCallable;
  after_response : option AsyncCallable;
  cache_control : option Header;
  etag : option Header
}.

(** ** The route handler object *)

Inductive Memo (A : Type) : Type :=
| Empty
| Resolved (a : A).

Arguments Empty {A}.
Arguments Resolved {A} a.

(** The closure [handler] that each of the four [_create_*_handler]
    functions returns, as the function that made it together with the
    arguments it closes over. *)
Inductive HandlerCode : Type :=
| _create_response_container_handler
    (after_request : option AsyncCallable) (cookies : list Cookie)
    (headers : list ResponseHeader) (media_type : string) (status_code : Z)
| _create_response_handler
    (after_request : option AsyncCallable) (cookies : list Cookie)
| _create_generic_asgi_response_handler
    (after_request : option AsyncCallable) (cookies : list Cookie)
| _create_data_handler
    (after_request : option AsyncCallable) (background : option Callable)
    (cookies : list Cookie) (headers : list ResponseHeader)
    (media_type : string) (response_class : PyClass)
    (return_annotation : Annotation) (status_code : Z)
    (type_encoders : option nat).

(** A function object: every evaluation of a [def] makes a new one. *)
Record FunctionObject : Type := {
  object_id : nat;
  code : HandlerCode
}.

Inductive HandlerClass : Type :=
| route | get | head | post | put | patch | delete.

Record HTTPRouteHandler : Type := {
  handler_class : HandlerClass;
  http_methods : gset string;
  status_code : Z;
  media_type : MediaTypeValue;
  background : option Callable;
  signature : option Signature;
  own_layer : Layer;
  owner_layers : list Layer;
  _resolved_after_response : Memo (option AsyncCallable);
  _resolved_before_request : Memo (option AsyncCallable);
  _resolved_response_handler : Memo FunctionObject
}.

(** Modelled from the spec: [BaseRouteHandler.ownership_layers] is defined
    outside the modules embedded here; the ownership chain is the ordered
    sequence from the outermost layer to the innermost one, the handler
    itself. *)
Definition ownership_layers (self : HTTPRouteHandler) : list Layer :=
  owner_layers self ++ [own_layer self].

(** ** What the handler code takes from the rest of the framework *)

(** The constant and the inherited methods that [http_handlers.py] uses and
    that live in modules not embedded here. *)
Class Framework : Type := {
  (** [starlite.constants.REDIRECT_STATUS_CODES] *)
  REDIRECT_STATUS_CODES : list Z;
  (** [BaseRouteHandler._validate_handler_function], reached through
      [super ()]: [None] when it returns, the exception when it raises. *)
  base_validate_handler_function : HTTPRouteHandler -> option Exception;
  (** [BaseRouteHandler.resolve_type_encoders] *)
  resolve_type_encoders : HTTPRouteHandler -> option nat
}.

(** ** Construction *)

(** The keyword arguments of [__init__] that the modelled methods depend on.
    [arg_kwargs] lists the names of the extra keyword arguments.  The
    cookies and headers are given as [narrow_response_cookies] and
    [narrow_response_headers] (module [utils], not embedded here)
    return them. *)
Record InitArgs : Type := {
  arg_http_method : option HttpMethodArg;
  arg_status_code : option Z;
  arg_media_type : option MediaTypeValue;
  arg_after_request : option Callable;
  arg_after_response : option Callable;
  arg_before_request : option Callable;
  arg_background : option Callable;
  arg_cache_control : option Header;
  arg_etag : option Header;
  arg_response_class : option PyClass;
  arg_response_cookies : option LayerCookies;
  arg_response_headers : option LayerHeaders;
  arg_kwargs : list string
}.

(** Python truthiness of the [http_method] argument. *)
Definition http_method_truthy (http_method : option HttpMethodArg) : bool :=
  match http_method with
  | None => false
  | Some (SingleMethod (MethodStr s)) => negb (String.eqb s "")
  | Some (SingleMethod (MethodEnum _)) => true
  | Some (MethodSeq ts) => negb (Nat.eqb (List.length ts) 0)
  end.

(** [status_code or default]: [None] and [0] both give the default. *)
Definition status_code_or (status_code : option Z) (default : Z) : Z :=
  match status_code with
  | Some c => if Z.eqb c 0 then default else c
  | None => default
  end.

(** [media_type or ""] *)
Definition media_type_or_empty (media_type : option MediaTypeValue) : MediaTypeValue :=
  match media_type with
  | Some (MediaTypeStr "") | None => MediaTypeStr ""
  | Some m => m
  end.

Definition MSG_SEMANTIC_ROUTE_HANDLER_WITH_HTTP : string :=
  "semantic route handlers cannot define http_method".

(** [HTTPRouteHandler.__init__]; [cls] is the class being instantiated and
    [http_method] the value its constructor received or passed on. *)
Definition HTTPRouteHandler__init__
    (cls : HandlerClass) (http_method : option HttpMethodArg) (a : InitArgs)
  : Result HTTPRouteHandler :=
  if negb (http_method_truthy http_method)
  then Raise (ImproperlyConfiguredException "An http_method kwarg is required")
  else
    methods ← _normalize_http_method (default (MethodSeq []) http_method);
    Ok {| handler_class := cls;
          http_methods := methods;
          status_code := status_code_or (arg_status_code a) (_get_default_status_code methods);
          media_type := media_type_or_empty (arg_media_type a);
          background := arg_background a;
          signature := None;
          own_layer :=
            {| response_class := arg_response_class a;
               response_headers := arg_response_headers a;
               response_cookies := arg_response_cookies a;
               before_request := AsyncCallableOf <$> arg_before_request a;
               after_request := AsyncCallableOf <$> arg_after_request a;
               after_response := AsyncCallableOf <$> arg_after_response a;
               cache_control := arg_cache_control a;
               etag := arg_etag a |};
          owner_layers := [];
          _resolved_after_response := Empty;
          _resolved_before_request := Empty;
          _resolved_response_handler := Empty |}.

(** The [__init__] of a semantic decorator fixed to method [m]. *)
Definition semantic__init__ (cls : HandlerClass) (m : HttpMethod) (a : InitArgs)
  : Result HTTPRouteHandler :=
  if existsb (String.eqb "http_method") (arg_kwargs a)
  then Raise (ImproperlyConfiguredException MSG_SEMANTIC_ROUTE_HANDLER_WITH_HTTP)
  else HTTPRouteHandler__init__ cls (Some (SingleMethod (MethodEnum m))) a.

(** Instantiating one of the seven decorator classes. *)
Definition new_handler (cls : HandlerClass) (a : InitArgs) : Result HTTPRouteHandler :=
  match cls with
  | route => HTTPRouteHandler__init__ route (arg_http_method a) a
  | get => semantic__init__ get GET a
  | head => semantic__init__ head HEAD a
  | post => semantic__init__ post POST a
  | put => semantic__init__ put PUT a
  | patch => semantic__init__ patch PATCH a
  | delete => semantic__init__ delete DELETE a
  end.

(** ** Field updates of the handler object *)

Definition set_signature (self : HTTPRouteHandler) (s : Signature) : HTTPRouteHandler :=
  {| handler_class := handler_class self; http_methods := http_methods self;
     status_code := status_code self; media_type := media_type self;
     background := background self;
     signature := Some s;
     own_layer := own_layer self; owner_layers := owner_layers self;
     _resolved_after_response := _resolved_after_response self;
     _resolved_before_request := _resolved_before_request self;
     _resolved_response_handler := _resolved_response_handler self |}.

Definition set_media_type (self : HTTPRouteHandler) (m : MediaTypeValue) : HTTPRouteHandler :=
  {| handler_class := handler_class self; http_methods := http_methods self;
     status_code := status_code self; media_type := m;
     background := background self;
     signature := signature self;
     own_layer := own_layer self; owner_layers := owner_layers self;
     _resolved_after_response := _resolved_after_response self;
     _resolved_before_request := _resolved_before_request self;
     _resolved_response_handler := _resolved_response_handler self |}.

Definition set_resolved_after_response (self : HTTPRouteHandler)
    (r : option AsyncCallable) : HTTPRouteHandler :=
  {| handler_class := handler_class self; http_methods := http_methods self;
     status_code := status_code self; media_type := media_type self;
     background := background self;
     signature := signature self;
     own_layer := own_layer self; owner_layers := owner_layers self;
     _resolved_after_response := Resolved r;
     _resolved_before_request := _resolved_before_request self;
     _resolved_response_handler := _resolved_response_handler self |}.

Definition set_resolved_before_request (self : HTTPRouteHandler)
    (r : option AsyncCallable) : HTTPRouteHandler :=
  {| handler_class := handler_class self; http_methods := http_methods self;
     status_code := status_code self; media_type := media_type self;
     background := background self;
     signature := signature self;
     own_layer := own_layer self; owner_layers := owner_layers self;
     _resolved_after_response := _resolved_after_response self;
     _resolved_before_request := Resolved r;
     _resolved_response_handler := _resolved_response_handler self |}.

Definition set_resolved_response_handler (self : HTTPRouteHandler)
    (f : FunctionObject) : HTTPRouteHandler :=
  {| handler_class := handler_class self; http_methods := http_methods self;
     status_code := status_code self; media_type := media_type self;
     background := background self;
     signature := signature self;
     own_layer := own_layer self; owner_layers := owner_layers self;
     _resolved_after_response := _resolved_after_response self;
     _resolved_before_request := _resolved_before_request self;
     _resolved_response_handler := Resolved f |}.

(** Reading [self.signature]: the attribute exists once [__call__] ran. *)
Definition get_signature (self : HTTPRouteHandler) : Result Signature :=
  match signature self with
  | Some s => Ok s
  | None => Raise (AttributeError "signature")
  end.

(** ** Validation of the handler function *)

(** [annotation in {None, "None"}] *)
Definition annotation_in_None (ann : Annotation) : bool :=
  match ann with
  | AnnNone => true
  | AnnString s => String.eqb s "None"
  | _ => false
  end.

(** [annotation in {None, "None", "FileResponse", "File"}] *)
Definition annotation_in_None_or_file (ann : Annotation) : bool :=
  match ann with
  | AnnNone => true
  | AnnString s => String.eqb s "None" || String.eqb s "FileResponse" || String.eqb s "File"
  | _ => false
  end.

(** [media_type in (MediaType.JSON, MediaType.HTML)]; a member of the string
    enumeration equals the string that is its value. *)
Definition media_type_in_JSON_HTML (m : MediaTypeValue) : bool :=
  String.eqb (media_type_str m) (MediaType_value JSON)
  || String.eqb (media_type_str m) (MediaType_value HTML).

Definition str_of_status (c : Z) : string := NilZero.string_of_int (Z.to_int c).

Definition no_body_status (c : Z) : bool :=
  (c <? 200) || Z.eqb c HTTP_204_NO_CONTENT || Z.eqb c HTTP_304_NOT_MODIFIED.

Section Handlers.
Context {framework : Framework}.

Definition is_redirect_status (c : Z) : bool :=
  existsb (Z.eqb c) REDIRECT_STATUS_CODES.

(** [HTTPRouteHandler._validate_handler_function]; the handler comes back
    because the method may reset [self.media_type]. *)
Definition HTTPRouteHandler_validate_handler_function (self : HTTPRouteHandler)
  : Result HTTPRouteHandler :=
  match base_validate_handler_function self with
  | Some e => Raise e
  | None =>
    sig ← get_signature self;
    let ann := return_annotation sig in
    match ann with
    | SignatureEmpty =>
        Raise (ImproperlyConfiguredException
          ("A return value of a route handler function should be type annotated."
           ++ "If your function doesn't return a value, annotate it as returning 'None'."))
    | _ =>
      if no_body_status (status_code self) && negb (annotation_in_None ann)
      then Raise (ImproperlyConfiguredException
          ("A status code 204, 304 or in the range below 200 does not support a response body."
           ++ "If the function should return a value, change the route handler status code to an appropriate value."))
      else if is_class_and_subclass ann Redirect && negb (is_redirect_status (status_code self))
      then Raise (ValidationException
          ("Redirect responses should have one of the following status codes: "
           ++ String.concat ", " (map str_of_status REDIRECT_STATUS_CODES)))
      else
        let self :=
          if (is_class_and_subclass ann File || is_class_and_subclass ann FileResponse)
             && media_type_in_JSON_HTML (media_type self)
          then set_media_type self (MediaTypeEnum TEXT)
          else self in
        if existsb (String.eqb "socket") (parameters sig)
        then Raise (ImproperlyConfiguredException
               "The 'socket' kwarg is not supported with http handlers")
        else if existsb (String.eqb "data") (parameters sig)
                && bool_decide ("GET" ∈ http_methods self)
        then Raise (ImproperlyConfiguredException
               "'data' kwarg is unsupported for 'GET' request handlers")
        else Ok self
    end
  end.

(** [head._validate_handler_function] *)
Definition head_validate_handler_function (self : HTTPRouteHandler)
  : Result HTTPRouteHandler :=
  self ← HTTPRouteHandler_validate_handler_function self;
  sig ← get_signature self;
  let ann := return_annotation sig in
  if negb (annotation_in_None_or_file ann
           || is_class_and_subclass ann File
           || is_class_and_subclass ann FileResponse)
  then Raise (ImproperlyConfiguredException
         "A response to a head request should not have a body")
  else Ok self.

(** [self._validate_handler_function ()], dispatched on the class of [self]:
    only [head] overrides the method. *)
Definition _validate_handler_function (self : HTTPRouteHandler)
  : Result HTTPRouteHandler :=
  match handler_class self with
  | head => head_validate_handler_function self
  | _ => HTTPRouteHandler_validate_handler_function self
  end.

(** [annotation in {str, bytes, AnyStr, Redirect, File} or
     any (is_class_and_subclass (annotation, t) for t in (str, bytes))] *)
Definition is_text_annotation (ann : Annotation) : bool :=
  match ann with
  | AnnAnyStr => true
  | AnnClass c =>
      existsb (String.eqb (cls_name c)) ["str"; "bytes"; Redirect; File]
      || existsb (is_class_and_subclass ann) ["str"; "bytes"]
  | _ => false
  end.

(** [HTTPRouteHandler.__call__]: registering the handler function [fn],
    given by its signature. *)
Definition HTTPRouteHandler__call__ (self : HTTPRouteHandler) (fn : Signature)
  : Result HTTPRouteHandler :=
  let self := set_signature self fn in
  self ← _validate_handler_function self;
  if String.eqb (media_type_str (media_type self)) ""
  then
    if is_text_annotation (return_annotation fn)
    then Ok (set_media_type self (MediaTypeEnum TEXT))
    else Ok (set_media_type self (MediaTypeEnum JSON))
  else Ok self.

(** ** Layered resolution *)

(** A Python [set] of cookies, in insertion order.  Adding a cookie equal to
    a member leaves the set as it is: the member is kept. *)
Definition set_contains (s : list Cookie) (c : Cookie) : bool :=
  existsb (Cookie_eq c) s.

Definition set_add (s : list Cookie) (c : Cookie) : list Cookie :=
  if set_contains s c then s else s ++ [c].

(** [s.update (cs)] *)
Definition set_update (s : list Cookie) (cs : list Cookie) : list Cookie :=
  fold_left set_add cs s.

(** [Cookie (key=key, value=value)] *)
Definition Cookie_of_item (item : string * string) : Cookie :=
  {| key := fst item; value := Some (snd item); documentation_only := false |}.

(** One turn of the loop of [resolve_response_cookies]. *)
Definition update_response_cookies (acc : list Cookie) (layer : Layer) : list Cookie :=
  match response_cookies layer with
  | None => acc
  | Some (CookieSeq []) => acc
  | Some (CookieSeq layer_response_cookies) => set_update acc layer_response_cookies
  | Some (CookieMapping items) =>
      if bool_decide (items = ∅) then acc
      else set_update acc (set_update [] (map Cookie_of_item (map_to_list items)))
  end.

(** [HTTPRouteHandler.resolve_response_cookies]: the loop runs over
    [reversed (self.ownership_layers)]. *)
Definition resolve_response_cookies (self : HTTPRouteHandler) : list Cookie :=
  fold_left update_response_cookies (rev (ownership_layers self)) [].

(** [ResponseHeader (name=name, value=value)] *)
Definition ResponseHeader_of_item (n v : string) : ResponseHeader :=
  {| name := n; header_value := Some v; header_documentation_only := false |}.

(** [{h.name: h for h in headers}] *)
Definition headers_by_name (headers : list ResponseHeader) : gmap string ResponseHeader :=
  fold_left (fun d h => <[name h := h]> d) headers ∅.

(** The assignment made for [cache_control] and for [etag]. *)
Definition set_extra_header (d : gmap string ResponseHeader) (header_model : option Header)
  : gmap string ResponseHeader :=
  match header_model with
  | Some m =>
      <[HEADER_NAME m :=
          {| name := HEADER_NAME m;
             header_value := Some (to_header m);
             header_documentation_only := model_documentation_only m |}]> d
  | None => d
  end.

(** One turn of the outer loop of [resolve_response_headers];
    [d.update (e)] is the union that prefers [e]. *)
Definition update_response_headers (d : gmap string ResponseHeader) (layer : Layer)
  : gmap string ResponseHeader :=
  let d :=
    match response_headers layer with
    | None => d
    | Some (HeaderSeq []) => d
    | Some (HeaderSeq layer_response_headers) => headers_by_name layer_response_headers ∪ d
    | Some (HeaderMapping items) =>
        if bool_decide (items = ∅) then d
        else map_imap (fun n v => Some (ResponseHeader_of_item n v)) items ∪ d
    end in
  fold_left set_extra_header [cache_control layer; etag layer] d.

(** [HTTPRouteHandler.resolve_response_headers]; the frozen set of the
    dictionary's values is listed in the order of their names. *)
Definition resolve_response_headers (self : HTTPRouteHandler) : list ResponseHeader :=
  (map_to_list (fold_left update_response_headers (ownership_layers self) ∅)).*2.

(** The default [Response] class. *)
Definition Response_class : PyClass :=
  {| cls_name := Response; cls_ancestors := []; cls_async_call := true |}.

(** [HTTPRouteHandler.resolve_response_class] *)
Definition resolve_response_class (self : HTTPRouteHandler) : PyClass :=
  default Response_class (List.head (omap response_class (rev (ownership_layers self)))).

(** [handlers[-1] if handlers else None] for the list of the truthy hooks
    of the layers. *)
Definition last_hook (hook : Layer -> option AsyncCallable) (layers : list Layer)
  : option AsyncCallable :=
  last (omap hook layers).

(** [HTTPRouteHandler.resolve_before_request] *)
Definition resolve_before_request (self : HTTPRouteHandler)
  : option AsyncCallable * HTTPRouteHandler :=
  match _resolved_before_request self with
  | Empty =>
      let resolved := last_hook before_request (ownership_layers self) in
      (resolved, set_resolved_before_request self resolved)
  | Resolved resolved => (resolved, self)
  end.

(** [HTTPRouteHandler.resolve_after_response] *)
Definition resolve_after_response (self : HTTPRouteHandler)
  : option AsyncCallable * HTTPRouteHandler :=
  match _resolved_after_response self with
  | Empty =>
      let resolved := last_hook after_response (ownership_layers self) in
      (resolved, set_resolved_after_response self resolved)
  | Resolved resolved => (resolved, self)
  end.

(** [annotation in {ASGIApp, "ASGIApp"}] *)
Definition annotation_in_ASGIApp (ann : Annotation) : bool :=
  match ann with
  | AnnASGIApp => true
  | AnnString s => String.eqb s "ASGIApp"
  | _ => false
  end.

(** [HTTPRouteHandler.resolve_response_handler].  [fresh] is the identity
    the next function object gets; the result carries the handler, the
    updated [self] and the next free identity. *)
Definition resolve_response_handler (self : HTTPRouteHandler) (fresh : nat)
  : Result (FunctionObject * HTTPRouteHandler * nat) :=
  match _resolved_response_handler self with
  | Resolved handler => Ok (handler, self, fresh)
  | Empty =>
      let after := last_hook after_request (ownership_layers self) in
      let media := media_type_str (media_type self) in
      let response_cls := resolve_response_class self in
      let headers := resolve_response_headers self in
      let cookies := resolve_response_cookies self in
      let encoders := resolve_type_encoders self in
      sig ← get_signature self;
      let ann := return_annotation sig in
      let handler :=
        if is_class_and_subclass ann ResponseContainer
        then _create_response_container_handler after cookies headers media
               (status_code self)
        else if is_class_and_subclass ann Response
        then _create_response_handler after cookies
        else if is_async_callable ann || annotation_in_ASGIApp ann
        then _create_generic_asgi_response_handler after cookies
        else _create_data_handler after (background self) cookies headers media
               response_cls ann (status_code self) encoders in
      let handler := {| object_id := fresh; code := handler |} in
      Ok (handler, set_resolved_response_handler self handler, S fresh)
  end.

End Handlers.

(** ** Memoised helpers *)

(** [functools.lru_cache (maxsize)] around [user_function].  The cache
    lists the calls it remembers, the most recently used first, each with
    the arguments and the result of the call.  A call looks its arguments up
    with [key_eq], the equality of the argument values: on a hit the stored
    result is returned and the entry moves to the front; on a miss the
    function runs, the new entry goes to the front and the entries beyond
    [maxsize] are dropped. *)
Section LruCache.
Context {K V : Type} (key_eq : K -> K -> bool) (maxsize : nat) (user_function : K -> V).

Fixpoint lru_find (cache : list (K * V)) (k : K) : option ((K * V) * list (K * V)) :=
  match cache with
  | [] => None
  | entry :: rest =>
      if key_eq (fst entry) k then Some (entry, rest)
      else match lru_find rest k with
           | Some (hit, others) => Some (hit, entry :: others)
           | None => None
           end
  end.

Definition lru_cache (cache : list (K * V)) (k : K) : V * list (K * V) :=
  match lru_find cache k with
  | Some (hit, others) => (snd hit, hit :: others)
  | None =>
      let result := user_function k in
      (result, firstn maxsize ((k, result) :: cache))
  end.

End LruCache.

(** [frozenset (cookies)] *)
Definition frozenset (cookies : list Cookie) : list Cookie :=
  set_update [] cookies.

(** Equality of two frozen sets of cookies: as many members, and every
    member of the first equal to a member of the second. *)
Definition frozenset_eq (a b : list Cookie) : bool :=
  Nat.eqb (List.length a) (List.length b) && forallb (set_contains b) a.

(** The function under the decorator of [_filter_cookies]; the set display
    [{*local_cookies, *layered_cookies}] takes the local cookies first. *)
Definition _filter_cookies__wrapped__ (args : list Cookie * list Cookie) : list Cookie :=
  List.filter (fun cookie => negb (documentation_only cookie))
              (set_update (set_update [] (fst args)) (snd args)).

Definition filter_cookies_key_eq (a b : list Cookie * list Cookie) : bool :=
  frozenset_eq (fst a) (fst b) && frozenset_eq (snd a) (snd b).

(** [_filter_cookies], with the cache of its [lru_cache (1024)]. *)
Definition _filter_cookies (cache : list ((list Cookie * list Cookie) * list Cookie))
    (local_cookies layered_cookies : list Cookie)
  : list Cookie * list ((list Cookie * list Cookie) * list Cookie) :=
  lru_cache filter_cookies_key_eq 1024 _filter_cookies__wrapped__ cache
            (local_cookies, layered_cookies).

#[global] Instance ResponseHeader_eq_dec : EqDecision ResponseHeader.
Proof. solve_decision. Defined.

(** The function under the decorator of [_normalize_headers]: the dictionary
    from the name to the value of the headers that are not
    documentation-only. *)
Definition _normalize_headers__wrapped__ (headers : list ResponseHeader)
  : gmap string (option string) :=
  fold_left
    (fun d header =>
       if header_documentation_only header then d
       else <[name header := header_value header]> d)
    headers ∅.

(** [_normalize_headers], with the cache of its [lru_cache (1024)].  A frozen
    set of headers is listed in the order of the names, as
    [resolve_response_headers] returns it, so that equal sets are equal
    lists; headers are compared field by field. *)
Definition _normalize_headers
    (cache : list (list ResponseHeader * gmap string (option string)))
    (headers : list ResponseHeader)
  : gmap string (option string) * list (list ResponseHeader * gmap string (option string)) :=
  lru_cache (fun a b => bool_decide (a = b)) 1024 _normalize_headers__wrapped__ cache headers.

(** ** The session middleware *)

Module Session.

(** Session data: a mapping from string keys to serialised values. *)
Abbreviation ScopeSession := (gmap string string).

(** An ASGI message: its ["type"] entry and its other entries. *)
Record Message : Type := {
  msg_type : string;
  msg_fields : gmap string string
}.

(** The part of the connection scope the middleware reads and writes:
    [session] is [scope.get ("session")]. *)
Record Scope : Type := {
  scope_type : string;
  session : option ScopeSession
}.

(** What can be observed of a run: the calls of the backend's
    [store_in_message] with the session and message they received, and the
    messages handed to the real [send], in the order they happened. *)
Inductive Event : Type :=
| StoreInMessage (scope_session : option ScopeSession) (message : Message)
| Send (message : Message).

Definition is_store (e : Event) : bool :=
  match e with
  | StoreInMessage _ _ => true
  | Send _ => false
  end.

(** What the wrapped application does with the scope and the [send] it is
    given: it rebinds or mutates the session, and it sends messages. *)
Inductive AppAction : Type :=
| SetSession (scope_session : option ScopeSession)
| CallSend (message : Message).

(** [SessionMiddleware] inherits from [AbstractMiddleware], which is defined
    outside the modules embedded here.  [SessionMiddleware.__init__] hands it
    the [scopes], [exclude] and [exclude_opt_key] of the backend's
    configuration, which [BaseBackendConfig] documents as the scopes for the
    middleware, the patterns to skip in the session middleware and the
    identifier that disables the session middleware for a route: a connection
    whose scope type is not among [scopes], or that a pattern or the opt key
    excludes, is one the middleware skips.  The test on the scope is taken as
    a parameter. *)
Class AbstractMiddleware : Type := {
  should_bypass_middleware : Scope -> bool
}.

Section Middleware.

(** The state of the backend and the exceptions it raises. *)
Context {B E : Type}.

(** [BaseSessionBackend]: the two abstract methods.  [store_in_message] may
    change the message it is given and the backend's own state. *)
Class BaseSessionBackend : Type := {
  store_in_message : B -> option ScopeSession -> Message -> Scope -> E + (Message * B);
  load_from_connection : B -> Scope -> E + (ScopeSession * B)
}.

Context {session_backend : BaseSessionBackend}.

Record World : Type := {
  scope : Scope;
  backend : B;
  trace : list Event
}.

Definition emit (w : World) (es : list Event) : World :=
  {| scope := scope w; backend := backend w; trace := trace w ++ es |}.

Definition set_backend (w : World) (b : B) : World :=
  {| scope := scope w; backend := b; trace := trace w |}.

Definition set_session (w : World) (s : option ScopeSession) : World :=
  {| scope := {| scope_type := scope_type (scope w); session := s |};
     backend := backend w; trace := trace w |}.

(** [connection.send (message)]: the real send. *)
Definition connection_send (message : Message) (w : World) : World :=
  emit w [Send message].

(** The [wrapped_send] closure made by [create_send_wrapper]. *)
Definition wrapped_send (message : Message) (w : World) : E + World :=
  if negb (String.eqb (msg_type message) "http.response.start")
  then inr (connection_send message w)
  else
    let scope_session := session (scope w) in
    let w := emit w [StoreInMessage scope_session message] in
    match store_in_message (backend w) scope_session message (scope w) with
    | inl e => inl e
    | inr (message, b) => inr (connection_send message (set_backend w b))
    end.

(** The wrapped application running with [send] as its send callable. *)
Fixpoint run_app (send : Message -> World -> E + World) (app : list AppAction)
    (w : World) : E + World :=
  match app with
  | [] => inr w
  | SetSession s :: rest => run_app send rest (set_session w s)
  | CallSend message :: rest =>
      match send message w with
      | inl e => inl e
      | inr w => run_app send rest w
      end
  end.

(** The body of [SessionMiddleware.__call__], as the class writes it. *)
Definition SessionMiddleware__call__ (app : list AppAction) (w : World) : E + World :=
  match load_from_connection (backend w) (scope w) with
  | inl e => inl e
  | inr (loaded, b) =>
      run_app wrapped_send app (set_session (set_backend w b) (Some loaded))
  end.

Context {abstract_middleware : AbstractMiddleware}.

(** Modelled from the spec: the middleware as the application stack calls
    it.  The parent class puts its test in front of the body of [__call__]:
    a connection it skips goes to the application with the scope and the
    [send] it came with, and the backend is not used; any other connection
    goes through the body above. *)
Definition SessionMiddleware_wrapped_call (app : list AppAction) (w : World)
  : E + World :=
  if should_bypass_middleware (scope w)
  then run_app (fun message w => inr (connection_send message w)) app w
  else SessionMiddleware__call__ app w.

(** The messages the application sends, and those among them that start a
    response. *)
Definition sent_messages (app : list AppAction) : list Message :=
  omap (fun a => match a with CallSend m => Some m | SetSession _ => None end) app.

Definition is_response_start (message : Message) : bool :=
  String.eqb (msg_type message) "http.response.start".

End Middleware.

Arguments BaseSessionBackend : clear implicits.
Arguments World : clear implicits.

End Session.

(** ** Notions used to state the properties *)

(** The cookies a layer lists, in the order the loop adds them. *)
Definition layer_cookies (layer : Layer) : list Cookie :=
  match response_cookies layer with
  | None => []
  | Some (CookieSeq cookies) => cookies
  | Some (CookieMapping items) => map Cookie_of_item (map_to_list items)
  end.

(** The first cookie of a list that has key [k]. *)
Definition find_key (k : string) (s : list Cookie) : option Cookie :=
  find (fun c => String.eqb (key c) k) s.

(** The cookie with key [k] of the innermost layer that lists one. *)
Definition innermost_cookie (k : string) (layers : list Layer) : option Cookie :=
  fold_right
    (fun layer inner =>
       match inner with
       | Some c => Some c
       | None => find_key k (layer_cookies layer)
       end)
    None layers.

(** The merge as the specification words it: the layers are scanned from
    the outermost to the innermost, and the cookies of the layer scanned
    later replace those with the same key collected so far.  (A layer's own
    cookies enter as the set Python builds from them.) *)
Definition override_cookies (acc layer_set : list Cookie) : list Cookie :=
  List.filter (fun c => negb (set_contains layer_set c)) acc ++ layer_set.

Definition merge_outer_to_inner (layers : list Layer) : list Cookie :=
  fold_left (fun acc layer => override_cookies acc (set_update [] (layer_cookies layer)))
            layers [].

(** [r] is the hook of the innermost layer that defines one, and [None]
    when no layer does. *)
Definition innermost_hook (hook : Layer -> option AsyncCallable) (layers : list Layer)
    (r : option AsyncCallable) : Prop :=
  match r with
  | Some h =>
      exists (outer : list Layer) (layer : Layer) (inner : list Layer),
        layers = (outer ++ layer :: inner)%list
        /\ hook layer = Some h
        /\ Forall (fun l => hook l = None) inner
  | None => Forall (fun l => hook l = None) layers
  end.

(** The four ways of building a response. *)
Inductive Strategy : Type :=
| ResponseContainerStrategy
| ResponseStrategy
| ASGIAppStrategy
| DataStrategy.

Definition strategy (c : HandlerCode) : Strategy :=
  match c with
  | _create_response_container_handler _ _ _ _ _ => ResponseContainerStrategy
  | _create_response_handler _ _ => ResponseStrategy
  | _create_generic_asgi_response_handler _ _ => ASGIAppStrategy
  | _create_data_handler _ _ _ _ _ _ _ _ _ => DataStrategy
  end.

(** The send wrapper as a state machine over the application's actions:
    starting with backend state [b] and scope [sc], the actions [app] make
    the events [es] and leave the backend in state [b'].  Every message of
    type ["http.response.start"] has the backend store the session the scope
    holds at that moment, and is then sent on as the backend left it; any
    other message is sent on as it is. *)
Section SessionTrace.
Context {B E : Type} {session_backend : Session.BaseSessionBackend B E}.

Inductive persists
  : B -> Session.Scope -> list Session.AppAction -> list Session.Event -> B -> Prop :=
| persists_done (b : B) (sc : Session.Scope) :
    persists b sc [] [] b
| persists_set (b b' : B) (sc : Session.Scope) (s : option Session.ScopeSession)
      (rest : list Session.AppAction) (es : list Session.Event) :
    persists b {| Session.scope_type := Session.scope_type sc; Session.session := s |}
             rest es b' ->
    persists b sc (Session.SetSession s :: rest) es b'
| persists_pass (b b' : B) (sc : Session.Scope) (m : Session.Message)
      (rest : list Session.AppAction) (es : list Session.Event) :
    Session.msg_type m <> "http.response.start" ->
    persists b sc rest es b' ->
    persists b sc (Session.CallSend m :: rest) (Session.Send m :: es) b'
| persists_start (b b1 b' : B) (sc : Session.Scope) (m m' : Session.Message)
      (rest : list Session.AppAction) (es : list Session.Event) :
    Session.msg_type m = "http.response.start" ->
    Session.store_in_message b (Session.session sc) m sc = inr (m', b1) ->
    persists b1 sc rest es b' ->
    persists b sc (Session.CallSend m :: rest)
             (Session.StoreInMessage (Session.session sc) m :: Session.Send m' :: es) b'.

End SessionTrace.

(** The resolve methods of a handler, as a caller invokes them one after
    the other on the same handler object. *)
Inductive MethodCall : Type :=
| Call_resolve_response_class
| Call_resolve_response_headers
| Call_resolve_response_cookies
| Call_resolve_before_request
| Call_resolve_after_response
| Call_resolve_response_handler.

Section MethodCalls.
Context {framework : Framework}.

(** The handler object, and the identity the next function object gets,
    after one call.  [resolve_response_class], [resolve_response_headers]
    and [resolve_response_cookies] assign nothing to [self]; the other three
    store what they resolve; a call that raises leaves the object as it
    was. *)
Definition after_call (state : HTTPRouteHandler * nat) (m : MethodCall)
  : HTTPRouteHandler * nat :=
  let (self, fresh) := state in
  match m with
  | Call_resolve_response_class => (self, fresh)
  | Call_resolve_response_headers => (self, fresh)
  | Call_resolve_response_cookies => (self, fresh)
  | Call_resolve_before_request => (snd (resolve_before_request self), fresh)
  | Call_resolve_after_response => (snd (resolve_after_response self), fresh)
  | Call_resolve_response_handler =>
      match resolve_response_handler self fresh with
      | Ok (_, self, fresh) => (self, fresh)
      | Raise _ => (self, fresh)
      end
  end.

Definition after_calls (calls : list MethodCall) (self : HTTPRouteHandler)
    (fresh : nat) : HTTPRouteHandler * nat :=
  fold_left after_call calls (self, fresh).

End MethodCalls.

(** ** Notions used to state the further properties *)

(** The response header a [CacheControlHeader] or [ETag] stands for. *)
Definition header_of_model (m : Header) : ResponseHeader :=
  {| name := HEADER_NAME m;
     header_value := Some (to_header m);
     header_documentation_only := model_documentation_only m |}.

(** The header named [n] that [header_model] stands for, if it has that
    name. *)
Definition model_header (n : string) (header_model : option Header)
  : option ResponseHeader :=
  match header_model with
  | Some m => if String.eqb (HEADER_NAME m) n then Some (header_of_model m) else None
  | None => None
  end.

(** The header named [n] among the [response_headers] of a layer: the last
    one listed, or the entry of the mapping. *)
Definition listed_header (n : string) (layer : Layer) : option ResponseHeader :=
  match response_headers layer with
  | None => None
  | Some (HeaderSeq headers) => find (fun h => String.eqb (name h) n) (rev headers)
  | Some (HeaderMapping items) => ResponseHeader_of_item n <$> items !! n
  end.

(** The header named [n] a layer sets: its [etag], else its
    [cache_control], else the one it lists. *)
Definition layer_header (n : string) (layer : Layer) : option ResponseHeader :=
  match model_header n (etag layer) with
  | Some h => Some h
  | None =>
      match model_header n (cache_control layer) with
      | Some h => Some h
      | None => listed_header n layer
      end
  end.

(** The header named [n] of the innermost layer that sets one. *)
Definition innermost_header (n : string) (layers : list Layer) : option ResponseHeader :=
  fold_right
    (fun layer inner =>
       match inner with
       | Some h => Some h
       | None => layer_header n layer
       end)
    None layers.

(** The response class of the innermost layer that sets one. *)
Definition innermost_response_class (layers : list Layer) (r : option PyClass) : Prop :=
  match r with
  | Some c =>
      exists (outer : list Layer) (layer : Layer) (inner : list Layer),
        layers = (outer ++ layer :: inner)%list
        /\ response_class layer = Some c
        /\ Forall (fun l => response_class l = None) inner
  | None => Forall (fun l => response_class l = None) layers
  end.

(** The method a semantic decorator is fixed to. *)
Definition semantic_method (cls : HandlerClass) : option HttpMethod :=
  match cls with
  | route => None
  | get => Some GET
  | head => Some HEAD
  | post => Some POST
  | put => Some PUT
  | patch => Some PATCH
  | delete => Some DELETE
  end.

(** The after-request hook a response handler closes over. *)
Definition handler_after_request (c : HandlerCode) : option AsyncCallable :=
  match c with
  | _create_response_container_handler after _ _ _ _ => after
  | _create_response_handler after _ => after
  | _create_generic_asgi_response_handler after _ => after
  | _create_data_handler after _ _ _ _ _ _ _ _ => after
  end.

(** The cookies a response handler closes over. *)
Definition handler_cookies (c : HandlerCode) : list Cookie :=
  match c with
  | _create_response_container_handler _ cookies _ _ _ => cookies
  | _create_response_handler _ cookies => cookies
  | _create_generic_asgi_response_handler _ cookies => cookies
  | _create_data_handler _ _ cookies _ _ _ _ _ _ => cookies
  end.

(** The messages handed to the real send, and the sessions handed to the
    backend, in the order of the events. *)
Definition forwarded (es : list Session.Event) : list Session.Message :=
  omap (fun e => match e with
                 | Session.Send m => Some m
                 | Session.StoreInMessage _ _ => None
                 end) es.

Definition stored_sessions (es : list Session.Event) : list (option Session.ScopeSession) :=
  omap (fun e => match e with
                 | Session.StoreInMessage s _ => Some s
                 | Session.Send _ => None
                 end) es.

(** The application never rebinds or changes the session of the scope. *)
Definition keeps_session (app : list Session.AppAction) : Prop :=
  Forall (fun a => match a with
                   | Session.SetSession _ => False
                   | Session.CallSend _ => True
                   end) app.

(** The handler after its owners have changed: another chain above the
    same handler. *)
Definition set_owner_layers (self : HTTPRouteHandler) (owners : list Layer)
  : HTTPRouteHandler :=
  {| handler_class := handler_class self; http_methods := http_methods self;
     status_code := status_code self; media_type := media_type self;
     background := background self;
     signature := signature self;
     own_layer := own_layer self; owner_layers := owners;
     _resolved_after_response := _resolved_after_response self;
     _resolved_before_request := _resolved_before_request self;
     _resolved_response_handler := _resolved_response_handler self |}.

(** ** Sample inputs *)

Definition sample_framework : Framework :=
  {| REDIRECT_STATUS_CODES := [301; 302; 303; 307; 308];
     base_validate_handler_function := fun _ => None;
     resolve_type_encoders := fun _ => None |}.

Definition sample_args (http_method : option HttpMethodArg) (status : option Z) : InitArgs :=
  {| arg_http_method := http_method;
     arg_status_code := status;
     arg_media_type := None;
     arg_after_request := None;
     arg_after_response := None;
     arg_before_request := None;
     arg_background := None;
     arg_cache_control := None;
     arg_etag := None;
     arg_response_class := None;
     arg_response_cookies := None;
     arg_response_headers := None;
     arg_kwargs := [] |}.

Definition class_str : PyClass :=
  {| cls_name := "str"; cls_ancestors := []; cls_async_call := false |}.

Definition class_Redirect : PyClass :=
  {| cls_name := Redirect; cls_ancestors := [ResponseContainer]; cls_async_call := false |}.

Definition sample_signature (ann : Annotation) : Signature :=
  {| return_annotation := ann; parameters := [] |}.

Definition empty_layer : Layer :=
  {| response_class := None; response_headers := None; response_cookies := None;
     before_request := None; after_request := None; after_response := None;
     cache_control := None; etag := None |}.

Definition cookie_layer (cookies : list Cookie) : Layer :=
  {| response_class := None; response_headers := None;
     response_cookies := Some (CookieSeq cookies);
     before_request := None; after_request := None; after_response := None;
     cache_control := None; etag := None |}.

Definition hook_layer (before after : option AsyncCallable) : Layer :=
  {| response_class := None; response_headers := None; response_cookies := None;
     before_request := before; after_request := None; after_response := after;
     cache_control := None; etag := None |}.

(** A registered GET handler below the given outer layers. *)
Definition sample_handler (owners : list Layer) (own : Layer) (ann : Annotation)
  : HTTPRouteHandler :=
  {| handler_class := get; http_methods := {["GET"]}; status_code := 200;
     media_type := MediaTypeEnum JSON; background := None;
     signature := Some (sample_signature ann);
     own_layer := own; owner_layers := owners;
     _resolved_after_response := Empty;
     _resolved_before_request := Empty;
     _resolved_response_handler := Empty |}.

(** A handler as the semantic decorator [cls] for [method] makes it, before
    a handler function is registered. *)
Definition fresh_handler (cls : HandlerClass) (method : string) (status : Z)
  : HTTPRouteHandler :=
  {| handler_class := cls; http_methods := {[method]}; status_code := status;
     media_type := MediaTypeStr ""; background := None;
     signature := None;
     own_layer := empty_layer; owner_layers := [];
     _resolved_after_response := Empty;
     _resolved_before_request := Empty;
     _resolved_response_handler := Empty |}.

Definition sample_cookie (k v : string) : Cookie :=
  {| key := k; value := Some v; documentation_only := false |}.

(** A session backend that counts its calls and writes the count into the
    outgoing message. *)
Definition counting_backend : Session.BaseSessionBackend nat string :=
  {| Session.store_in_message := fun n _ message _ =>
       inr ({| Session.msg_type := Session.msg_type message;
               Session.msg_fields := <["set-cookie" := str_of_status (Z.of_nat (S n))]>
                                       (Session.msg_fields message) |}, S n);
     Session.load_from_connection := fun n _ => inr (∅, n) |}.

Definition response_start : Session.Message :=
  {| Session.msg_type := "http.response.start"; Session.msg_fields := ∅ |}.

Definition response_body : Session.Message :=
  {| Session.msg_type := "http.response.body"; Session.msg_fields := ∅ |}.

Definition sample_world : Session.World nat :=
  {| Session.scope := {| Session.scope_type := "http"; Session.session := None |};
     Session.backend := 0%nat;
     Session.trace := [] |}.

Definition sample_hooked_handler : HTTPRouteHandler :=
  sample_handler
    [hook_layer (Some (AsyncCallableOf 1%nat)) None;
     hook_layer (Some (AsyncCallableOf 2%nat)) None]
    (hook_layer None None) AnnNone.

(** A class that is a subclass of both [ResponseContainer] and [Response]. *)
Definition class_Both : PyClass :=
  {| cls_name := "Both"; cls_ancestors := [ResponseContainer; Response];
     cls_async_call := true |}.

Definition sample_cookie_handler : HTTPRouteHandler :=
  sample_handler [cookie_layer [sample_cookie "a" "1"; sample_cookie "b" "1"]]
                 (cookie_layer [sample_cookie "a" "2"]) AnnNone.

Definition sample_app : list Session.AppAction :=
  [Session.CallSend response_start;
   Session.SetSession (Some {["user" := "1"]});
   Session.CallSend response_body].

Definition header_layer (headers : list ResponseHeader) : Layer :=
  {| response_class := None; response_headers := Some (HeaderSeq headers);
     response_cookies := None;
     before_request := None; after_request := None; after_response := None;
     cache_control := None; etag := None |}.

Definition after_request_layer (after : option AsyncCallable) : Layer :=
  {| response_class := None; response_headers := None; response_cookies := None;
     before_request := None; after_request := after; after_response := None;
     cache_control := None; etag := None |}.

(** A router that sets a header and a handler that lists the same header
    for the documentation only. *)
Definition sample_header_handler : HTTPRouteHandler :=
  sample_handler
    [header_layer [{| name := "x-token"; header_value := Some "1";
                      header_documentation_only := false |}]]
    (header_layer [{| name := "x-token"; header_value := None;
                      header_documentation_only := true |}])
    AnnNone.

Definition sample_after_request_handler : HTTPRouteHandler :=
  sample_handler
    [after_request_layer (Some (AsyncCallableOf 1%nat));
     after_request_layer (Some (AsyncCallableOf 2%nat))]
    (after_request_layer None) AnnNone.

Definition documentation_cookie (k : string) : Cookie :=
  {| key := k; value := None; documentation_only := true |}.

Definition class_FileResponse : PyClass :=
  {| cls_name := FileResponse; cls_ancestors := [Response]; cls_async_call := true |}.

Definition sample_plain_app : list Session.AppAction :=
  [Session.CallSend response_start; Session.CallSend response_body].

Definition sample_header (n v : string) : ResponseHeader :=
  {| name := n; header_value := Some v; header_documentation_only := false |}.

Definition cookie_header_layer (cookies : list Cookie) (headers : list ResponseHeader)
  : Layer :=
  {| response_class := None; response_headers := Some (HeaderSeq headers);
     response_cookies := Some (CookieSeq cookies);
     before_request := Some (AsyncCallableOf 1%nat); after_request := None;
     after_response := None;
     cache_control := None; etag := None |}.

(** A router that sets two cookies and two headers, and a handler that sets
    one of the cookies and one of the headers again. *)
Definition sample_resolving_handler : HTTPRouteHandler :=
  sample_handler
    [cookie_header_layer [sample_cookie "a" "1"; sample_cookie "b" "1"]
                         [sample_header "x-token" "1"; sample_header "x-frame" "deny"]]
    (cookie_header_layer [sample_cookie "a" "2"] [sample_header "x-token" "2"])
    AnnNone.

Definition sample_calls : list MethodCall :=
  [Call_resolve_response_cookies; Call_resolve_before_request;
   Call_resolve_response_handler; Call_resolve_response_headers;
   Call_resolve_after_response].

(** The middleware with the default configuration: [scopes] holds ["http"]
    and ["websocket"], and nothing is excluded. *)
Definition sample_middleware : Session.AbstractMiddleware :=
  {| Session.should_bypass_middleware := fun sc =>
       negb (existsb (String.eqb (Session.scope_type sc)) ["http"; "websocket"]) |}.

(** * Properties *)

(** ** HTTP method normalisation *)

Lemma HTTP_METHOD_NAMES_elem (n : string) :
  n ∈ HTTP_METHOD_NAMES ->
  n = "DELETE" \/ n = "GET" \/ n = "HEAD" \/ n = "OPTIONS" \/ n = "PATCH"
  \/ n = "POST" \/ n = "PUT".
Proof.
  unfold HTTP_METHOD_NAMES. rewrite elem_of_list_to_set. cbn.
  rewrite !elem_of_cons, elem_of_nil. tauto.
Qed.

Lemma HTTP_METHOD_NAMES_upper (n : string) :
  n ∈ HTTP_METHOD_NAMES -> upper n = n.
Proof.
  intros Hn. apply HTTP_METHOD_NAMES_elem in Hn.
  repeat (destruct Hn as [-> | Hn]; [reflexivity |]). subst. reflexivity.
Qed.

(** The loop either adds the names of all tokens to [output], or stops at the
    first token whose name is unknown. *)
Lemma normalize_loop_spec (methods : list MethodToken) :
  forall output : gset string,
  match normalize_loop methods output with
  | Ok result =>
      Forall (fun t => method_name t ∈ HTTP_METHOD_NAMES) methods
      /\ (forall n, n ∈ result <-> (n ∈ output \/ exists t, In t methods /\ method_name t = n))
  | Raise e =>
      exists t, In t methods /\ (method_name t ∉ HTTP_METHOD_NAMES)
                /\ e = ValidationException ("Invalid HTTP method: " ++ method_name t)
  end.
Proof.
  induction methods as [| t rest IH]; intros output; cbn [normalize_loop].
  - split; [constructor |]. intros n. split; [auto |].
    intros [Hn | (t & [] & _)]. exact Hn.
  - case_bool_decide as Hknown.
    + specialize (IH ({[method_name t]} ∪ output)).
      destruct (normalize_loop rest ({[method_name t]} ∪ output)) as [result | e].
      * destruct IH as [Hall Hmem]. split; [constructor; assumption |].
        intros n. rewrite Hmem, elem_of_union, elem_of_singleton. split.
        -- intros [[-> | Hn] | (t' & Hin & Hname)].
           ++ right. exists t. split; [left; reflexivity | reflexivity].
           ++ left. exact Hn.
           ++ right. exists t'. split; [right; exact Hin | exact Hname].
        -- intros [Hn | (t' & [<- | Hin] & Hname)].
           ++ left. right. exact Hn.
           ++ left. left. symmetry. exact Hname.
           ++ right. exists t'. split; assumption.
      * destruct IH as (t' & Hin & Hbad & ->).
        exists t'. split; [right; exact Hin | split; [exact Hbad | reflexivity]].
    + exists t. split; [left; reflexivity | split; [exact Hknown | reflexivity]].
Qed.

(** What [_normalize_http_method] returns, for every input. *)
Lemma normalize_http_method_spec (http_methods : HttpMethodArg) :
  match _normalize_http_method http_methods with
  | Ok output =>
      Forall (fun t => method_name t ∈ HTTP_METHOD_NAMES) (method_tokens http_methods)
      /\ (forall n, n ∈ output <->
                    exists t, In t (method_tokens http_methods) /\ method_name t = n)
      /\ output ⊆ HTTP_METHOD_NAMES
      /\ (forall n, n ∈ output -> upper n = n)
      /\ (output = ∅ <-> method_tokens http_methods = [])
  | Raise e =>
      exists t, In t (method_tokens http_methods)
                /\ (method_name t ∉ HTTP_METHOD_NAMES)
                /\ e = ValidationException ("Invalid HTTP method: " ++ method_name t)
  end.
Proof.
  unfold _normalize_http_method.
  pose proof (normalize_loop_spec (method_tokens http_methods) ∅) as Hloop.
  destruct (normalize_loop (method_tokens http_methods) ∅) as [output | e]; [| exact Hloop].
  destruct Hloop as [Hall Hmem].
  assert (Hmem' : forall n, n ∈ output <->
            exists t, In t (method_tokens http_methods) /\ method_name t = n).
  { intros n. rewrite Hmem. split; [| auto].
    intros [Hn | Hn]; [| exact Hn]. exfalso. revert Hn. apply not_elem_of_empty. }
  assert (Hsub : output ⊆ HTTP_METHOD_NAMES).
  { intros n Hn. apply Hmem' in Hn as (t & Hin & <-).
    rewrite Forall_forall in Hall. apply Hall, list_elem_of_In, Hin. }
  repeat split; try assumption.
  - apply Hmem'.
  - apply Hmem'.
  - intros n Hn. apply HTTP_METHOD_NAMES_upper, Hsub, Hn.
  - intros ->. destruct (method_tokens http_methods) as [| t rest]; [reflexivity |].
    exfalso. apply (not_elem_of_empty (C := gset string) (method_name t)).
    apply Hmem'. exists t. split; [left; reflexivity | reflexivity].
  - intros Hnil. apply leibniz_equiv, elem_of_equiv_empty. intros n Hn.
    apply Hmem' in Hn as (t & Hin & _). rewrite Hnil in Hin. exact Hin.
Qed.

(** C5 (as amended).  Normalising one token or a sequence of tokens either
    returns the set of the tokens' upper-case names, every one of them a
    known, canonical (upper-case) method name, or fails with a
    [ValidationException] naming a token that is not a known method; it
    fails exactly when some token is unknown.  The result is empty exactly
    when the input is the empty sequence; [["GET"; "get"]] gives [{"GET"}]. *)
Theorem normalize_http_method_contract :
  (forall http_methods : HttpMethodArg,
     match _normalize_http_method http_methods with
     | Ok output =>
         Forall (fun t => method_name t ∈ HTTP_METHOD_NAMES) (method_tokens http_methods)
         /\ (forall n, n ∈ output <->
                       exists t, In t (method_tokens http_methods) /\ method_name t = n)
         /\ output ⊆ HTTP_METHOD_NAMES
         /\ (forall n, n ∈ output -> upper n = n)
         /\ (output = ∅ <-> method_tokens http_methods = [])
     | Raise e =>
         exists t, In t (method_tokens http_methods)
                   /\ (method_name t ∉ HTTP_METHOD_NAMES)
                   /\ e = ValidationException ("Invalid HTTP method: " ++ method_name t)
     end)
  /\ _normalize_http_method (MethodSeq [MethodStr "GET"; MethodStr "get"]) = Ok {["GET"]}
  /\ _normalize_http_method (SingleMethod (MethodEnum GET)) = Ok {["GET"]}.
Proof.
  split; [exact normalize_http_method_spec | split; reflexivity].
Qed.

(** C5, the claim as stated fails: the empty sequence is normalised to the
    empty set. *)
Lemma normalize_http_method_empty_sequence :
  _normalize_http_method (MethodSeq []) = Ok ∅.
Proof. reflexivity. Qed.

(** The constructor refuses a falsy [http_method] before normalising it, so
    the methods of a handler are never empty. *)
Lemma new_handler_methods_nonempty (cls : HandlerClass) (a : InitArgs)
    (self : HTTPRouteHandler) :
  new_handler cls a = Ok self -> http_methods self <> ∅.
Proof.
  intros Hnew.
  assert (Hinit : exists http_method, HTTPRouteHandler__init__ cls http_method a = Ok self).
  { destruct cls; cbn [new_handler] in Hnew; [eauto | ..];
      unfold semantic__init__ in Hnew;
      destruct (existsb _ _); try discriminate; eauto. }
  destruct Hinit as [http_method Hinit]. unfold HTTPRouteHandler__init__ in Hinit.
  destruct (http_method_truthy http_method) eqn:Htruthy; [| discriminate].
  cbn [negb] in Hinit.
  pose proof (normalize_http_method_spec (default (MethodSeq []) http_method)) as Hspec.
  destruct (_normalize_http_method _) as [methods | e]; [| discriminate].
  cbn in Hinit. injection Hinit as <-. cbn [http_methods].
  destruct Hspec as (_ & _ & _ & _ & Hempty). intros Hnone.
  apply Hempty in Hnone.
  destruct http_method as [[[s | m] | ts] |]; cbn in Hnone, Htruthy;
    try discriminate.
  subst ts. discriminate.
Qed.

(** ** The default status code *)

(** C3.  A handler constructed without an explicit status code gets 201 if
    POST is among its methods, 204 if DELETE is and POST is not, and 200
    otherwise. *)
Theorem default_status_code_policy (cls : HandlerClass) (a : InitArgs)
    (self : HTTPRouteHandler) :
  arg_status_code a = None ->
  new_handler cls a = Ok self ->
  ("POST" ∈ http_methods self -> status_code self = 201)
  /\ ("POST" ∉ http_methods self -> "DELETE" ∈ http_methods self -> status_code self = 204)
  /\ ("POST" ∉ http_methods self -> "DELETE" ∉ http_methods self -> status_code self = 200).
Proof.
  intros Hnone Hnew.
  assert (Hinit : exists http_method, HTTPRouteHandler__init__ cls http_method a = Ok self).
  { destruct cls; cbn [new_handler] in Hnew; [eauto | ..];
      unfold semantic__init__ in Hnew;
      destruct (existsb _ _); try discriminate; eauto. }
  destruct Hinit as [http_method Hinit]. unfold HTTPRouteHandler__init__ in Hinit.
  destruct (negb (http_method_truthy http_method)); [discriminate |].
  destruct (_normalize_http_method _) as [methods | e]; [| discriminate].
  cbn in Hinit. injection Hinit as <-. cbn [http_methods status_code].
  rewrite Hnone. cbn [status_code_or]. unfold _get_default_status_code.
  cbn [HttpMethod_value].
  repeat case_bool_decide; repeat split; intros; first [reflexivity | contradiction].
Qed.

Lemma fresh_handler_is_new :
  new_handler delete (sample_args None None) = Ok (fresh_handler delete "DELETE" 204)
  /\ new_handler head (sample_args None None) = Ok (fresh_handler head "HEAD" 200)
  /\ new_handler get (sample_args None None) = Ok (fresh_handler get "GET" 200).
Proof. repeat split; vm_compute; reflexivity. Qed.

Lemma default_status_code_policy_witness :
  exists self,
    new_handler route
      (sample_args (Some (MethodSeq [MethodStr "delete"; MethodEnum GET])) None) = Ok self
    /\ status_code self = 204.
Proof.
  eexists. split; [reflexivity |].
  refine (proj1 (proj2
    (default_status_code_policy route
       (sample_args (Some (MethodSeq [MethodStr "delete"; MethodEnum GET])) None)
       _ eq_refl eq_refl)) _ _).
  - apply (bool_decide_unpack _). vm_compute. exact I.
  - apply (bool_decide_unpack _). vm_compute. exact I.
Defined.

(** ** Validation at registration *)

Section Registration.
Context {framework : Framework}.

Lemma no_body_status_iff (c : Z) :
  no_body_status c = true <-> (c = 204 \/ c = 304 \/ c < 200).
Proof.
  unfold no_body_status, HTTP_204_NO_CONTENT, HTTP_304_NOT_MODIFIED.
  rewrite !orb_true_iff, Z.ltb_lt, !Z.eqb_eq. tauto.
Qed.

(** An exception raised by the validation of [HTTPRouteHandler] ends the
    registration, for a handler of any of the decorator classes. *)
Lemma call_raises_of_validate (self : HTTPRouteHandler) (fn : Signature) (e : Exception) :
  HTTPRouteHandler_validate_handler_function (set_signature self fn) = Raise e ->
  HTTPRouteHandler__call__ self fn = Raise e.
Proof.
  intros Hraise. unfold HTTPRouteHandler__call__, _validate_handler_function.
  destruct (handler_class (set_signature self fn));
    unfold head_validate_handler_function; rewrite Hraise; reflexivity.
Qed.

(** With a status code that allows no body, any annotation but [None]
    ends the registration. *)
Lemma no_body_status_raises (self : HTTPRouteHandler) (fn : Signature) :
  no_body_status (status_code self) = true ->
  annotation_in_None (return_annotation fn) = false ->
  base_validate_handler_function (set_signature self fn) = None ->
  exists detail,
    HTTPRouteHandler__call__ self fn = Raise (ImproperlyConfiguredException detail).
Proof.
  intros Hstatus Hann Hbase.
  assert (Hval : exists detail,
             HTTPRouteHandler_validate_handler_function (set_signature self fn)
             = Raise (ImproperlyConfiguredException detail)).
  { unfold HTTPRouteHandler_validate_handler_function. rewrite Hbase.
    cbn [get_signature set_signature signature status_code mbind Result_bind].
    rewrite Hstatus, Hann.
    destruct (return_annotation fn); cbn; eauto. }
  destruct Hval as [detail Hval]. exists detail.
  apply call_raises_of_validate, Hval.
Qed.

(** C4.  When the status code is 204, 304 or below 200, registering a
    handler function whose return annotation is not [None] (written as the
    object or as the string) fails with an [ImproperlyConfiguredException]. *)
Theorem no_body_status_requires_None (self : HTTPRouteHandler) (fn : Signature) :
  (status_code self = 204 \/ status_code self = 304 \/ status_code self < 200) ->
  return_annotation fn <> AnnNone ->
  return_annotation fn <> AnnString "None" ->
  base_validate_handler_function (set_signature self fn) = None ->
  exists detail,
    HTTPRouteHandler__call__ self fn = Raise (ImproperlyConfiguredException detail).
Proof.
  intros Hstatus HnotNone HnotStr Hbase.
  apply no_body_status_raises; [apply no_body_status_iff, Hstatus | | exact Hbase].
  destruct (return_annotation fn) as [| | s | | | | |]; try reflexivity.
  - contradiction.
  - cbn. apply String.eqb_neq. congruence.
Qed.

Lemma is_redirect_status_false (c : Z) :
  is_redirect_status c = false <-> ~ In c REDIRECT_STATUS_CODES.
Proof.
  unfold is_redirect_status. rewrite <- not_true_iff_false, existsb_exists.
  split.
  - intros Hno Hin. apply Hno. exists c. split; [exact Hin | apply Z.eqb_refl].
  - intros Hno (x & Hin & Heq). apply Z.eqb_eq in Heq. subst x. exact (Hno Hin).
Qed.

(** C9 (as amended).  When the return annotation is a subclass of
    [Redirect] and the status code is not one of the redirect status codes,
    registration fails: with a [ValidationException], unless the status code
    is 204, 304 or below 200, in which case the earlier check raises an
    [ImproperlyConfiguredException]. *)
Theorem redirect_requires_redirect_status (self : HTTPRouteHandler) (fn : Signature) :
  is_class_and_subclass (return_annotation fn) Redirect = true ->
  ~ In (status_code self) REDIRECT_STATUS_CODES ->
  base_validate_handler_function (set_signature self fn) = None ->
  ((status_code self = 204 \/ status_code self = 304 \/ status_code self < 200) ->
   exists detail,
     HTTPRouteHandler__call__ self fn = Raise (ImproperlyConfiguredException detail))
  /\ (~ (status_code self = 204 \/ status_code self = 304 \/ status_code self < 200) ->
      HTTPRouteHandler__call__ self fn
      = Raise (ValidationException
          ("Redirect responses should have one of the following status codes: "
           ++ String.concat ", " (map str_of_status REDIRECT_STATUS_CODES)))).
Proof.
  intros Hredirect Hstatus Hbase.
  destruct (return_annotation fn) as [| | | c | | | |] eqn:Hann; try discriminate.
  split.
  - intros Hnobody. apply no_body_status_raises;
      [apply no_body_status_iff, Hnobody | rewrite Hann; reflexivity | exact Hbase].
  - intros Hbody. apply call_raises_of_validate.
    unfold HTTPRouteHandler_validate_handler_function. rewrite Hbase.
    cbn [get_signature set_signature signature status_code mbind Result_bind].
    rewrite Hann, Hredirect.
    apply is_redirect_status_false in Hstatus. rewrite Hstatus.
    rewrite <- no_body_status_iff in Hbody. apply not_true_is_false in Hbody.
    rewrite Hbody. reflexivity.
Qed.

Lemma validate_keeps_signature (self self' : HTTPRouteHandler) :
  HTTPRouteHandler_validate_handler_function self = Ok self' ->
  signature self' = signature self.
Proof.
  unfold HTTPRouteHandler_validate_handler_function.
  destruct (base_validate_handler_function self); [discriminate |].
  destruct (get_signature self) as [sig | e]; [| discriminate].
  cbn [mbind Result_bind].
  destruct (return_annotation sig); try discriminate; cbv zeta;
    repeat match goal with
           | |- context [if ?b then Raise _ else _] => destruct b; [discriminate |]
           end;
    intros Hok; injection Hok as <-;
    try match goal with
        | |- context [if ?b then _ else _] => destruct b
        end; reflexivity.
Qed.

(** C10 (as amended).  Registering a handler function with a handler made
    by the [head] decorator fails unless the return annotation is [None],
    [File] or [FileResponse] (the object, its name, or a subclass); when the
    checks of every HTTP handler pass, the failure is the
    [ImproperlyConfiguredException] about the body.  The check is the one
    the class [head] adds to [_validate_handler_function]: a handler for
    HEAD made with [route] does not run it. *)
Theorem head_requires_file_or_None (self : HTTPRouteHandler) (fn : Signature) :
  handler_class self = head ->
  annotation_in_None_or_file (return_annotation fn) = false ->
  is_class_and_subclass (return_annotation fn) File = false ->
  is_class_and_subclass (return_annotation fn) FileResponse = false ->
  (exists e, HTTPRouteHandler__call__ self fn = Raise e)
  /\ (forall self',
        HTTPRouteHandler_validate_handler_function (set_signature self fn) = Ok self' ->
        HTTPRouteHandler__call__ self fn
        = Raise (ImproperlyConfiguredException
                   "A response to a head request should not have a body")).
Proof.
  intros Hhead Hnone Hfile Hfileresponse.
  assert (Hcall : forall self',
            HTTPRouteHandler_validate_handler_function (set_signature self fn) = Ok self' ->
            HTTPRouteHandler__call__ self fn
            = Raise (ImproperlyConfiguredException
                       "A response to a head request should not have a body")).
  { intros self' Hok.
    unfold HTTPRouteHandler__call__, _validate_handler_function.
    replace (handler_class (set_signature self fn)) with head by (symmetry; exact Hhead).
    unfold head_validate_handler_function. rewrite Hok.
    cbn [mbind Result_bind]. unfold get_signature.
    rewrite (validate_keeps_signature _ _ Hok).
    cbn [set_signature signature mbind Result_bind].
    rewrite Hnone, Hfile, Hfileresponse. reflexivity. }
  split; [| exact Hcall].
  destruct (HTTPRouteHandler_validate_handler_function (set_signature self fn))
    as [self' | e] eqn:Hval.
  - eexists. apply (Hcall self'). reflexivity.
  - exists e. apply call_raises_of_validate, Hval.
Qed.

End Registration.

Lemma no_body_status_requires_None_witness :
  exists detail,
    @HTTPRouteHandler__call__ sample_framework (fresh_handler delete "DELETE" 204)
      (sample_signature (AnnClass class_str))
    = Raise (ImproperlyConfiguredException detail).
Proof.
  apply (@no_body_status_requires_None sample_framework).
  - left. reflexivity.
  - discriminate.
  - discriminate.
  - reflexivity.
Defined.

Lemma redirect_requires_redirect_status_witness :
  @HTTPRouteHandler__call__ sample_framework (fresh_handler get "GET" 200)
    (sample_signature (AnnClass class_Redirect))
  = Raise (ValidationException
      "Redirect responses should have one of the following status codes: 301, 302, 303, 307, 308").
Proof.
  apply (@redirect_requires_redirect_status sample_framework
           (fresh_handler get "GET" 200) (sample_signature (AnnClass class_Redirect))).
  - reflexivity.
  - cbn. intros [Heq | [Heq | [Heq | [Heq | [Heq | []]]]]]; discriminate.
  - reflexivity.
  - cbn. intros [Heq | [Heq | Hlt]]; [discriminate | discriminate | lia].
Defined.

(** C9, the claim as stated fails: a GET handler with status code 200 and
    return annotation [Redirect] is rejected with a [ValidationException],
    not with an [ImproperlyConfiguredException]. *)
Lemma redirect_raises_ValidationException :
  @HTTPRouteHandler__call__ sample_framework (fresh_handler get "GET" 200)
    (sample_signature (AnnClass class_Redirect))
  = Raise (ValidationException
      "Redirect responses should have one of the following status codes: 301, 302, 303, 307, 308")
  /\ forall detail,
       @HTTPRouteHandler__call__ sample_framework (fresh_handler get "GET" 200)
         (sample_signature (AnnClass class_Redirect))
       <> Raise (ImproperlyConfiguredException detail).
Proof.
  split; [vm_compute; reflexivity |].
  intros detail. vm_compute. discriminate.
Qed.

(** C10, the claim as stated fails: [route], which is [HTTPRouteHandler]
    itself, makes a handler for HEAD when given [http_method="HEAD"], and
    such a handler is registered with the return annotation [str]. *)
Lemma route_HEAD_handler_registers_str :
  new_handler route (sample_args (Some (SingleMethod (MethodStr "HEAD"))) None)
  = Ok (fresh_handler route "HEAD" 200)
  /\ http_methods (fresh_handler route "HEAD" 200) = {["HEAD"]}
  /\ annotation_in_None_or_file (AnnClass class_str) = false
  /\ @HTTPRouteHandler__call__ sample_framework (fresh_handler route "HEAD" 200)
       (sample_signature (AnnClass class_str))
     = Ok (set_media_type
             (set_signature (fresh_handler route "HEAD" 200)
                (sample_signature (AnnClass class_str)))
             (MediaTypeEnum TEXT)).
Proof. repeat split; vm_compute; reflexivity. Qed.

Lemma head_requires_file_or_None_witness :
  @HTTPRouteHandler__call__ sample_framework (fresh_handler head "HEAD" 200)
    (sample_signature (AnnClass class_str))
  = Raise (ImproperlyConfiguredException
             "A response to a head request should not have a body").
Proof.
  refine (proj2 (@head_requires_file_or_None sample_framework
                   (fresh_handler head "HEAD" 200)
                   (sample_signature (AnnClass class_str))
                   eq_refl eq_refl eq_refl eq_refl) _ _).
  vm_compute. reflexivity.
Defined.

(** ** Hooks *)

Lemma last_hook_innermost (hook : Layer -> option AsyncCallable) (layers : list Layer) :
  innermost_hook hook layers (last_hook hook layers).
Proof.
  unfold last_hook.
  induction layers as [| l layers IH] using rev_ind; [constructor |].
  rewrite omap_app. cbn [omap list_omap].
  destruct (hook l) as [h |] eqn:Hl.
  - rewrite last_snoc. exists layers, l, []. repeat split; [exact Hl | constructor].
  - rewrite app_nil_r.
    destruct (last (omap hook layers)) as [h |].
    + destruct IH as (outer & layer & inner & -> & Hlayer & Hinner).
      exists outer, layer, (inner ++ [l])%list. repeat split.
      * rewrite <- app_assoc. reflexivity.
      * exact Hlayer.
      * apply Forall_app. split; [exact Hinner | constructor; [exact Hl | constructor]].
    + apply Forall_app. split; [exact IH | constructor; [exact Hl | constructor]].
Qed.

(** Once resolved, a hook is read back from the handler: a second call
    returns the same hook and leaves the handler as it is. *)
Lemma resolve_hooks_memoized (self : HTTPRouteHandler) :
  resolve_before_request (snd (resolve_before_request self))
  = (fst (resolve_before_request self), snd (resolve_before_request self))
  /\ resolve_after_response (snd (resolve_after_response self))
     = (fst (resolve_after_response self), snd (resolve_after_response self)).
Proof.
  unfold resolve_before_request, resolve_after_response.
  destruct (_resolved_before_request self) eqn:Hbefore,
           (_resolved_after_response self) eqn:Hafter;
    cbn; rewrite ?Hbefore, ?Hafter; split; reflexivity.
Qed.

(** C6.  On a handler whose hooks are not resolved yet, [before_request]
    and [after_response] resolve to the hook of the innermost layer of the
    ownership chain that defines one (the last one met from the outermost
    layer inwards), and to [None] when no layer defines one. *)
Theorem hooks_resolve_to_innermost (self : HTTPRouteHandler) :
  _resolved_before_request self = Empty ->
  _resolved_after_response self = Empty ->
  innermost_hook before_request (ownership_layers self) (fst (resolve_before_request self))
  /\ innermost_hook after_response (ownership_layers self) (fst (resolve_after_response self)).
Proof.
  intros Hbefore Hafter. unfold resolve_before_request, resolve_after_response.
  rewrite Hbefore, Hafter. cbn [fst]. split; apply last_hook_innermost.
Qed.

Lemma hooks_resolve_to_innermost_witness :
  fst (resolve_before_request sample_hooked_handler) = Some (AsyncCallableOf 2%nat)
  /\ fst (resolve_after_response sample_hooked_handler) = None
  /\ innermost_hook before_request (ownership_layers sample_hooked_handler)
                    (fst (resolve_before_request sample_hooked_handler))
  /\ innermost_hook after_response (ownership_layers sample_hooked_handler)
                    (fst (resolve_after_response sample_hooked_handler)).
Proof.
  split; [reflexivity | split; [reflexivity |]].
  apply (hooks_resolve_to_innermost sample_hooked_handler); reflexivity.
Defined.

(** ** The response handler *)

Section Dispatch.
Context {framework : Framework}.

(** C7.  On a handler whose response handler is not resolved yet,
    [resolve_response_handler] makes one new function by the first strategy
    that applies to the return annotation, in the order: subclass of
    [ResponseContainer], subclass of [Response], asynchronous callable or
    [ASGIApp], any other data.  It stores the function, and every later call
    returns that very function object, makes no new one and leaves the
    handler as it is, whatever the annotation then is. *)
Theorem resolve_response_handler_dispatch (self : HTTPRouteHandler) (sig : Signature)
    (fresh : nat) :
  _resolved_response_handler self = Empty ->
  signature self = Some sig ->
  exists handler self',
    resolve_response_handler self fresh = Ok (handler, self', S fresh)
    /\ object_id handler = fresh
    /\ strategy (code handler)
       = (if is_class_and_subclass (return_annotation sig) ResponseContainer
          then ResponseContainerStrategy
          else if is_class_and_subclass (return_annotation sig) Response
          then ResponseStrategy
          else if is_async_callable (return_annotation sig)
                  || annotation_in_ASGIApp (return_annotation sig)
          then ASGIAppStrategy
          else DataStrategy)
    /\ _resolved_response_handler self' = Resolved handler
    /\ forall (sig' : Signature) (fresh' : nat),
         resolve_response_handler (set_signature self' sig') fresh'
         = Ok (handler, set_signature self' sig', fresh').
Proof.
  intros Hempty Hsig. unfold resolve_response_handler at 1, get_signature.
  rewrite Hempty, Hsig. cbn [mbind Result_bind].
  eexists. eexists. split; [reflexivity |].
  split; [reflexivity |]. split.
  - cbn [code].
    destruct (is_class_and_subclass (return_annotation sig) ResponseContainer);
      [reflexivity |].
    destruct (is_class_and_subclass (return_annotation sig) Response); [reflexivity |].
    destruct (is_async_callable (return_annotation sig)
              || annotation_in_ASGIApp (return_annotation sig)); reflexivity.
  - split; [reflexivity |]. intros sig' fresh'. reflexivity.
Qed.

(** Resolving the response handler does not touch the ownership chain. *)
Lemma resolve_response_handler_keeps_chain (self self' : HTTPRouteHandler)
    (handler : FunctionObject) (fresh next : nat) :
  resolve_response_handler self fresh = Ok (handler, self', next) ->
  ownership_layers self' = ownership_layers self.
Proof.
  unfold resolve_response_handler.
  destruct (_resolved_response_handler self).
  - destruct (get_signature self); cbn [mbind Result_bind]; [| discriminate].
    intros Hok. injection Hok as _ <- _. reflexivity.
  - intros Hok. injection Hok as _ <- _. reflexivity.
Qed.

End Dispatch.

(** A class that is a subclass of both [ResponseContainer] and [Response]
    is handled as a response container. *)
Lemma resolve_response_handler_dispatch_witness :
  exists handler self',
    @resolve_response_handler sample_framework
      (sample_handler [] empty_layer (AnnClass class_Both)) 7%nat
    = Ok (handler, self', 8%nat)
    /\ object_id handler = 7%nat
    /\ strategy (code handler) = ResponseContainerStrategy
    /\ _resolved_response_handler self' = Resolved handler
    /\ forall (sig' : Signature) (fresh' : nat),
         @resolve_response_handler sample_framework (set_signature self' sig') fresh'
         = Ok (handler, set_signature self' sig', fresh').
Proof.
  exact (@resolve_response_handler_dispatch sample_framework
           (sample_handler [] empty_layer (AnnClass class_Both))
           (sample_signature (AnnClass class_Both)) 7%nat eq_refl eq_refl).
Defined.

(** ** Response cookies *)

Section CookieSets.

Implicit Types (s acc cs : list Cookie) (c : Cookie) (k : string).

Lemma find_key_app k s cs :
  find_key k (s ++ cs) =
  match find_key k s with
  | Some x => Some x
  | None => find_key k cs
  end.
Proof.
  unfold find_key. induction s as [| a s IH]; [reflexivity |].
  cbn. destruct (String.eqb (key a) k); [reflexivity | exact IH].
Qed.

Lemma find_key_Some k s c : find_key k s = Some c -> In c s /\ key c = k.
Proof.
  intros Hfind. apply find_some in Hfind as [Hin Hkey].
  split; [exact Hin | apply String.eqb_eq, Hkey].
Qed.

Lemma find_key_None k s : find_key k s = None <-> ~ In k (map key s).
Proof.
  unfold find_key. induction s as [| a s IH]; cbn.
  - tauto.
  - destruct (String.eqb_spec (key a) k) as [Heq | Hne].
    + split; [discriminate | intros Hno; exfalso; apply Hno; left; exact Heq].
    + rewrite IH. tauto.
Qed.

Lemma find_key_In k s : find_key k s <> None <-> In k (map key s).
Proof.
  rewrite find_key_None. destruct (in_dec string_dec k (map key s)); tauto.
Qed.

Lemma In_find_key s c : NoDup (map key s) -> (In c s <-> find_key (key c) s = Some c).
Proof.
  intros Hnodup. split; [| intros Hfind; apply (find_key_Some _ _ _ Hfind)].
  unfold find_key. induction s as [| a s IH]; [intros [] |].
  cbn in Hnodup. apply NoDup_cons in Hnodup as [Hfresh Hnodup].
  intros [-> | Hin]; cbn.
  - rewrite String.eqb_refl. reflexivity.
  - destruct (String.eqb_spec (key a) (key c)) as [Heq | Hne].
    + exfalso. apply Hfresh. rewrite Heq. apply list_elem_of_In, in_map, Hin.
    + apply IH; assumption.
Qed.

Lemma set_contains_find s c :
  set_contains s c = match find_key (key c) s with Some _ => true | None => false end.
Proof.
  unfold set_contains, find_key, Cookie_eq. induction s as [| a s IH]; [reflexivity |].
  cbn. rewrite (String.eqb_sym (key c) (key a)).
  destruct (String.eqb (key a) (key c)); [reflexivity | exact IH].
Qed.

Lemma find_key_set_add k s c :
  find_key k (set_add s c) =
  match find_key k s with
  | Some x => Some x
  | None => if String.eqb (key c) k then Some c else None
  end.
Proof.
  unfold set_add. rewrite set_contains_find.
  destruct (find_key (key c) s) as [x |] eqn:Hc.
  - destruct (find_key k s) eqn:Hk; [reflexivity |].
    destruct (String.eqb_spec (key c) k) as [<- | _]; [congruence | reflexivity].
  - rewrite find_key_app. cbn. reflexivity.
Qed.

Lemma find_key_set_update k cs : forall s,
  find_key k (set_update s cs) =
  match find_key k s with
  | Some x => Some x
  | None => find_key k cs
  end.
Proof.
  unfold set_update. induction cs as [| c cs IH]; intros s; cbn [fold_left].
  - destruct (find_key k s); reflexivity.
  - rewrite IH, find_key_set_add.
    destruct (find_key k s); [reflexivity |]. cbn.
    destruct (String.eqb (key c) k); reflexivity.
Qed.

Lemma NoDup_set_add s c : NoDup (map key s) -> NoDup (map key (set_add s c)).
Proof.
  intros Hnodup. unfold set_add. rewrite set_contains_find.
  destruct (find_key (key c) s) eqn:Hc; [exact Hnodup |].
  rewrite map_app. apply NoDup_app. split; [exact Hnodup | split].
  - intros x Hx Hx'. cbn in Hx'. apply list_elem_of_In in Hx'.
    destruct Hx' as [<- | []]. apply find_key_None in Hc.
    apply Hc, list_elem_of_In, Hx.
  - cbn. apply NoDup_singleton.
Qed.

Lemma NoDup_set_update cs : forall s,
  NoDup (map key s) -> NoDup (map key (set_update s cs)).
Proof.
  unfold set_update. induction cs as [| c cs IH]; intros s Hnodup; cbn [fold_left].
  - exact Hnodup.
  - apply IH, NoDup_set_add, Hnodup.
Qed.

End CookieSets.

Section CookieLayers.

Implicit Types (acc : list Cookie) (layer : Layer) (layers : list Layer) (k : string).

(** A turn of the loop keeps the cookies collected so far and adds, for
    every other key, the first cookie the layer lists with it. *)
Lemma find_key_update_response_cookies k acc layer :
  find_key k (update_response_cookies acc layer) =
  match find_key k acc with
  | Some x => Some x
  | None => find_key k (layer_cookies layer)
  end.
Proof.
  unfold update_response_cookies, layer_cookies.
  destruct (response_cookies layer) as [[[| c cs] | items] |].
  - destruct (find_key k acc); reflexivity.
  - apply find_key_set_update.
  - case_bool_decide as Hempty.
    + subst items. rewrite map_to_list_empty. destruct (find_key k acc); reflexivity.
    + rewrite !find_key_set_update. reflexivity.
  - destruct (find_key k acc); reflexivity.
Qed.

Lemma NoDup_update_response_cookies acc layer :
  NoDup (map key acc) -> NoDup (map key (update_response_cookies acc layer)).
Proof.
  intros Hnodup. unfold update_response_cookies.
  destruct (response_cookies layer) as [[[| c cs] | items] |]; try exact Hnodup.
  - apply NoDup_set_update, Hnodup.
  - case_bool_decide; [exact Hnodup | apply NoDup_set_update, Hnodup].
Qed.

Lemma resolve_cons layer layers :
  fold_left update_response_cookies (rev (layer :: layers)) [] =
  update_response_cookies (fold_left update_response_cookies (rev layers) []) layer.
Proof. cbn [rev]. rewrite fold_left_app. reflexivity. Qed.

Lemma find_key_resolve k layers :
  find_key k (fold_left update_response_cookies (rev layers) []) = innermost_cookie k layers.
Proof.
  induction layers as [| layer layers IH]; [reflexivity |].
  rewrite resolve_cons, find_key_update_response_cookies, IH. reflexivity.
Qed.

Lemma NoDup_resolve layers :
  NoDup (map key (fold_left update_response_cookies (rev layers) [])).
Proof.
  induction layers as [| layer layers IH]; [constructor |].
  rewrite resolve_cons. apply NoDup_update_response_cookies, IH.
Qed.

Lemma innermost_cookie_None k layers :
  innermost_cookie k layers = None <->
  Forall (fun l => ~ In k (map key (layer_cookies l))) layers.
Proof.
  induction layers as [| layer layers IH]; cbn [innermost_cookie fold_right].
  - split; [constructor | reflexivity].
  - fold (innermost_cookie k layers). rewrite Forall_cons, <- IH, <- find_key_None.
    destruct (innermost_cookie k layers); [| tauto].
    split; [discriminate | intros [_ Hno]; discriminate].
Qed.

Lemma innermost_cookie_Some k layers (c : Cookie) :
  innermost_cookie k layers = Some c ->
  exists (outer : list Layer) (layer : Layer) (inner : list Layer),
    layers = (outer ++ layer :: inner)%list
    /\ find_key k (layer_cookies layer) = Some c
    /\ Forall (fun l => ~ In k (map key (layer_cookies l))) inner.
Proof.
  induction layers as [| layer layers IH]; cbn [innermost_cookie fold_right];
    [discriminate |].
  fold (innermost_cookie k layers).
  destruct (innermost_cookie k layers) as [c' |] eqn:Hinner.
  - intros Hc. destruct (IH Hc) as (outer & l & inner & -> & Hl & Hno).
    exists (layer :: outer), l, inner. repeat split; assumption.
  - intros Hc. exists [], layer, layers. repeat split; [exact Hc |].
    apply innermost_cookie_None, Hinner.
Qed.

Lemma find_key_filter_override k acc (layer_set : list Cookie) :
  find_key k (List.filter (fun c => negb (set_contains layer_set c)) acc) =
  match find_key k layer_set with
  | Some _ => None
  | None => find_key k acc
  end.
Proof.
  induction acc as [| a acc IH]; cbn [List.filter].
  - destruct (find_key k layer_set); reflexivity.
  - rewrite set_contains_find.
    destruct (String.eqb_spec (key a) k) as [Heq | Hne].
    + rewrite Heq. destruct (find_key k layer_set) eqn:Hk; cbn [negb].
      * exact IH.
      * unfold find_key. cbn [find]. rewrite Heq, String.eqb_refl. reflexivity.
    + assert (Hskip : forall l : list Cookie, find_key k (a :: l) = find_key k l).
      { intros l. unfold find_key. cbn [find].
        destruct (String.eqb_spec (key a) k); [contradiction | reflexivity]. }
      rewrite (Hskip acc).
      destruct (find_key (key a) layer_set); cbn [negb];
        [exact IH | rewrite Hskip; exact IH].
Qed.

Lemma find_key_override_cookies k acc (layer_set : list Cookie) :
  find_key k (override_cookies acc layer_set) =
  match find_key k layer_set with
  | Some x => Some x
  | None => find_key k acc
  end.
Proof.
  unfold override_cookies.
  rewrite find_key_app, find_key_filter_override.
  destruct (find_key k layer_set); [reflexivity |].
  destruct (find_key k acc); reflexivity.
Qed.

Lemma NoDup_override_cookies acc (layer_set : list Cookie) :
  NoDup (map key acc) -> NoDup (map key layer_set) ->
  NoDup (map key (override_cookies acc layer_set)).
Proof.
  intros Hacc Hset. unfold override_cookies. rewrite map_app.
  apply NoDup_app. split; [| split; [| exact Hset]].
  - induction acc as [| a acc IH]; cbn [List.filter]; [constructor |].
    cbn in Hacc. apply NoDup_cons in Hacc as [Hfresh Hacc].
    destruct (negb (set_contains layer_set a)); [| apply IH, Hacc].
    cbn. apply NoDup_cons. split; [| apply IH, Hacc].
    intros Hin. apply Hfresh. apply list_elem_of_In in Hin. apply list_elem_of_In.
    apply in_map_iff in Hin as (x & Hx & Hin). apply filter_In in Hin as [Hin _].
    rewrite <- Hx. apply in_map, Hin.
  - intros x Hx Hx'. apply list_elem_of_In in Hx, Hx'.
    apply in_map_iff in Hx as (a & <- & Hin). apply filter_In in Hin as [_ Hkeep].
    rewrite set_contains_find in Hkeep.
    apply find_key_In in Hx'. destruct (find_key (key a) layer_set); [discriminate |].
    apply Hx'. reflexivity.
Qed.

Lemma find_key_merge k layers : forall acc,
  find_key k
    (fold_left (fun acc layer => override_cookies acc (set_update [] (layer_cookies layer)))
               layers acc) =
  match innermost_cookie k layers with
  | Some c => Some c
  | None => find_key k acc
  end.
Proof.
  induction layers as [| layer layers IH]; intros acc; [reflexivity |].
  cbn [fold_left innermost_cookie fold_right]. fold (innermost_cookie k layers).
  rewrite IH, find_key_override_cookies, find_key_set_update. cbn.
  destruct (innermost_cookie k layers); reflexivity.
Qed.

Lemma NoDup_merge layers : forall acc,
  NoDup (map key acc) ->
  NoDup (map key
    (fold_left (fun acc layer => override_cookies acc (set_update [] (layer_cookies layer)))
               layers acc)).
Proof.
  induction layers as [| layer layers IH]; intros acc Hacc; [exact Hacc |].
  cbn [fold_left]. apply IH, NoDup_override_cookies; [exact Hacc |].
  apply NoDup_set_update. constructor.
Qed.

End CookieLayers.

Lemma innermost_cookie_defined (k : string) (layers : list Layer) :
  innermost_cookie k layers <> None <->
  exists layer, In layer layers /\ In k (map key (layer_cookies layer)).
Proof.
  induction layers as [| l layers IH]; cbn [innermost_cookie fold_right].
  - split; [congruence | intros (layer & [] & _)].
  - fold (innermost_cookie k layers). split.
    + destruct (innermost_cookie k layers) as [c |].
      * intros _. destruct IH as [IH _].
        destruct IH as (layer & Hin & Hk); [discriminate |].
        exists layer. split; [right; exact Hin | exact Hk].
      * intros Hfind. exists l. split; [left; reflexivity |].
        apply find_key_In, Hfind.
    + intros (layer & [<- | Hin] & Hk).
      * destruct (innermost_cookie k layers); [discriminate |].
        apply find_key_In, Hk.
      * destruct IH as [_ IH].
        destruct (innermost_cookie k layers); [discriminate |].
        exfalso. apply IH; [| reflexivity]. exists layer. split; assumption.
Qed.

(** C1.  The resolved response cookies hold at most one cookie per key and
    one for every key some layer lists; the cookie kept for a key comes from
    the innermost layer that lists the key.  That is the set obtained by
    scanning the ownership chain from the outermost layer to the innermost
    one and letting the layer scanned later win. *)
Theorem response_cookies_innermost_layer_wins (self : HTTPRouteHandler) :
  NoDup (map key (resolve_response_cookies self))
  /\ (forall k : string,
        In k (map key (resolve_response_cookies self)) <->
        exists layer, In layer (ownership_layers self)
                      /\ In k (map key (layer_cookies layer)))
  /\ (forall c : Cookie,
        In c (resolve_response_cookies self) ->
        exists (outer : list Layer) (layer : Layer) (inner : list Layer),
          ownership_layers self = (outer ++ layer :: inner)%list
          /\ In c (layer_cookies layer)
          /\ Forall (fun l => ~ In (key c) (map key (layer_cookies l))) inner)
  /\ (forall c : Cookie,
        In c (resolve_response_cookies self) <->
        In c (merge_outer_to_inner (ownership_layers self))).
Proof.
  unfold resolve_response_cookies, merge_outer_to_inner.
  pose proof (NoDup_resolve (ownership_layers self)) as Hnodup.
  split; [exact Hnodup |]. split; [| split].
  - intros k. rewrite <- find_key_In, find_key_resolve. apply innermost_cookie_defined.
  - intros c Hin. apply (In_find_key _ _ Hnodup) in Hin.
    rewrite find_key_resolve in Hin.
    destruct (innermost_cookie_Some _ _ _ Hin) as (outer & layer & inner & Hsplit & Hfind & Hno).
    exists outer, layer, inner. repeat split; [exact Hsplit | | exact Hno].
    apply (find_key_Some _ _ _ Hfind).
  - intros c. rewrite (In_find_key _ _ Hnodup), find_key_resolve.
    assert (Hmerged : NoDup (map key (merge_outer_to_inner (ownership_layers self)))).
    { apply NoDup_merge. constructor. }
    unfold merge_outer_to_inner in Hmerged. rewrite (In_find_key _ c Hmerged).
    rewrite find_key_merge. cbn.
    destruct (innermost_cookie (key c) (ownership_layers self)); [reflexivity |].
    split; discriminate.
Qed.

(** The cookie of the handler itself wins over the one of its router. *)
Lemma response_cookies_example :
  resolve_response_cookies sample_cookie_handler
  = [sample_cookie "a" "2"; sample_cookie "b" "1"].
Proof. reflexivity. Qed.

(** ** The dictionary of the response headers *)

Section HeaderResolution.

Implicit Types (d : gmap string ResponseHeader) (n : string) (layer : Layer).

Lemma find_app_first {A : Type} (f : A -> bool) (l1 l2 : list A) :
  find f (l1 ++ l2) = match find f l1 with Some x => Some x | None => find f l2 end.
Proof.
  induction l1 as [| a l1 IH]; [reflexivity |].
  cbn. destruct (f a); [reflexivity | exact IH].
Qed.

Lemma lookup_headers_fold n (headers : list ResponseHeader) : forall d,
  fold_left (fun d h => <[name h := h]> d) headers d !! n =
  match find (fun h => String.eqb (name h) n) (rev headers) with
  | Some h => Some h
  | None => d !! n
  end.
Proof.
  induction headers as [| h headers IH]; intros d; [reflexivity |].
  cbn [fold_left rev]. rewrite IH, find_app_first.
  destruct (find _ (rev headers)); [reflexivity |]. cbn.
  destruct (String.eqb_spec (name h) n) as [<- | Hne].
  - apply lookup_insert_eq.
  - apply lookup_insert_ne, Hne.
Qed.

Lemma lookup_set_extra_header n d (header_model : option Header) :
  set_extra_header d header_model !! n =
  match model_header n header_model with
  | Some h => Some h
  | None => d !! n
  end.
Proof.
  destruct header_model as [m |]; [| reflexivity]. cbn.
  destruct (String.eqb_spec (HEADER_NAME m) n) as [<- | Hne].
  - apply lookup_insert_eq.
  - apply lookup_insert_ne, Hne.
Qed.

Lemma lookup_union_first (d1 d2 : gmap string ResponseHeader) n :
  (d1 ∪ d2) !! n = match d1 !! n with Some h => Some h | None => d2 !! n end.
Proof.
  rewrite lookup_union. destruct (d1 !! n), (d2 !! n); reflexivity.
Qed.

(** A turn of the loop sets the names the layer sets and keeps the others. *)
Lemma lookup_update_response_headers n d layer :
  update_response_headers d layer !! n =
  match layer_header n layer with
  | Some h => Some h
  | None => d !! n
  end.
Proof.
  unfold update_response_headers, layer_header. cbn [fold_left].
  rewrite !lookup_set_extra_header.
  destruct (model_header n (etag layer)); [reflexivity |].
  destruct (model_header n (cache_control layer)); [reflexivity |].
  unfold listed_header.
  destruct (response_headers layer) as [[[| h hs] | items] |].
  - reflexivity.
  - unfold headers_by_name. rewrite lookup_union_first, lookup_headers_fold.
    rewrite lookup_empty. destruct (find _ (rev (h :: hs))); reflexivity.
  - case_bool_decide as Hempty.
    + subst items. rewrite lookup_empty. reflexivity.
    + rewrite lookup_union_first, map_lookup_imap.
      destruct (items !! n); reflexivity.
  - reflexivity.
Qed.

Lemma lookup_resolve_headers n (layers : list Layer) : forall d,
  fold_left update_response_headers layers d !! n =
  match innermost_header n layers with
  | Some h => Some h
  | None => d !! n
  end.
Proof.
  induction layers as [| layer layers IH]; intros d; [reflexivity |].
  cbn [fold_left innermost_header fold_right]. fold (innermost_header n layers).
  rewrite IH, lookup_update_response_headers.
  destruct (innermost_header n layers); reflexivity.
Qed.

Lemma layer_header_name n layer (h : ResponseHeader) :
  layer_header n layer = Some h -> name h = n.
Proof.
  assert (Hmodel : forall m, model_header n m = Some h -> name h = n).
  { intros [m |]; cbn; [| discriminate].
    destruct (String.eqb_spec (HEADER_NAME m) n); [| discriminate].
    intros Hh. injection Hh as <-. assumption. }
  unfold layer_header.
  destruct (model_header n (etag layer)) eqn:Hetag.
  { intros Hh. injection Hh as ->. apply Hmodel in Hetag. exact Hetag. }
  destruct (model_header n (cache_control layer)) eqn:Hcache.
  { intros Hh. injection Hh as ->. apply Hmodel in Hcache. exact Hcache. }
  unfold listed_header.
  destruct (response_headers layer) as [[hs | items] |]; [| | discriminate].
  - intros Hfind. apply find_some in Hfind as [_ Hname].
    apply String.eqb_eq, Hname.
  - destruct (items !! n); cbn; [| discriminate].
    intros Hh. injection Hh as <-. reflexivity.
Qed.

Lemma innermost_header_name n (layers : list Layer) (h : ResponseHeader) :
  innermost_header n layers = Some h -> name h = n.
Proof.
  induction layers as [| layer layers IH]; cbn [innermost_header fold_right];
    [discriminate |].
  fold (innermost_header n layers).
  destruct (innermost_header n layers) as [h' |].
  - intros Hh. apply IH. exact Hh.
  - apply layer_header_name.
Qed.

Lemma innermost_header_None n (layers : list Layer) :
  innermost_header n layers = None <-> Forall (fun l => layer_header n l = None) layers.
Proof.
  induction layers as [| layer layers IH]; cbn [innermost_header fold_right].
  - split; [constructor | reflexivity].
  - fold (innermost_header n layers). rewrite Forall_cons, <- IH.
    destruct (innermost_header n layers); [| tauto].
    split; [discriminate | intros [_ Hno]; discriminate].
Qed.

Lemma innermost_header_Some n (layers : list Layer) (h : ResponseHeader) :
  innermost_header n layers = Some h ->
  exists (outer : list Layer) (layer : Layer) (inner : list Layer),
    layers = (outer ++ layer :: inner)%list
    /\ layer_header n layer = Some h
    /\ Forall (fun l => layer_header n l = None) inner.
Proof.
  induction layers as [| layer layers IH]; cbn [innermost_header fold_right];
    [discriminate |].
  fold (innermost_header n layers).
  destruct (innermost_header n layers) as [h' |] eqn:Hinner.
  - intros Hh. destruct (IH Hh) as (outer & l & inner & -> & Hl & Hno).
    exists (layer :: outer), l, inner. repeat split; assumption.
  - intros Hh. exists [], layer, layers. repeat split; [exact Hh |].
    apply innermost_header_None, Hinner.
Qed.

(** The resolved headers are the values of a dictionary in which every
    header sits under its own name. *)
Lemma elem_of_resolve_response_headers (self : HTTPRouteHandler) (h : ResponseHeader) :
  h ∈ resolve_response_headers self <->
  innermost_header (name h) (ownership_layers self) = Some h.
Proof.
  unfold resolve_response_headers. rewrite list_elem_of_fmap. split.
  - intros ([n h'] & -> & Hin). cbn. apply elem_of_map_to_list in Hin.
    rewrite lookup_resolve_headers, lookup_empty in Hin.
    destruct (innermost_header n (ownership_layers self)) as [h0 |] eqn:Hn;
      [| discriminate].
    injection Hin as ->. rewrite (innermost_header_name _ _ _ Hn). exact Hn.
  - intros Hh. exists (name h, h). split; [reflexivity |].
    apply elem_of_map_to_list. rewrite lookup_resolve_headers, Hh. reflexivity.
Qed.

End HeaderResolution.

Lemma NoDup_resolve_response_headers (self : HTTPRouteHandler) :
  NoDup (name <$> resolve_response_headers self).
Proof.
  unfold resolve_response_headers. rewrite <- list_fmap_compose.
  set (d := fold_left update_response_headers (ownership_layers self) ∅).
  replace ((name ∘ snd) <$> map_to_list d) with ((map_to_list d).*1).
  - apply NoDup_fst_map_to_list.
  - apply Forall_fmap_ext_1, Forall_forall. intros [n h] Hin.
    apply elem_of_map_to_list in Hin. unfold d in Hin.
    rewrite lookup_resolve_headers, lookup_empty in Hin. cbn.
    destruct (innermost_header n (ownership_layers self)) as [h0 |] eqn:Hn;
      [| discriminate].
    injection Hin as ->. symmetry. apply (innermost_header_name _ _ _ Hn).
Qed.

(** ** Resolution made twice *)

(** Resolving a hook does not touch the ownership chain. *)
Lemma resolve_hooks_keep_chain (self : HTTPRouteHandler) :
  ownership_layers (snd (resolve_before_request self)) = ownership_layers self
  /\ ownership_layers (snd (resolve_after_response self)) = ownership_layers self.
Proof.
  unfold resolve_before_request, resolve_after_response.
  destruct (_resolved_before_request self), (_resolved_after_response self);
    split; reflexivity.
Qed.

Section RepeatedResolution.
Context {framework : Framework}.

(** No resolve method writes to the ownership chain, whatever it memoises. *)
Lemma after_call_keeps_chain (state : HTTPRouteHandler * nat) (m : MethodCall) :
  ownership_layers (fst (after_call state m)) = ownership_layers (fst state).
Proof.
  destruct state as [self fresh], m; cbn [after_call fst]; try reflexivity.
  - apply resolve_hooks_keep_chain.
  - apply resolve_hooks_keep_chain.
  - destruct (resolve_response_handler self fresh) as [[[handler self'] next] | e] eqn:Hr;
      [| reflexivity].
    cbn [fst]. apply (resolve_response_handler_keeps_chain _ _ _ _ _ Hr).
Qed.

Lemma after_calls_keep_chain (calls : list MethodCall) (self : HTTPRouteHandler)
    (fresh : nat) :
  ownership_layers (fst (after_calls calls self fresh)) = ownership_layers self.
Proof.
  unfold after_calls.
  change (ownership_layers self) with (ownership_layers (fst (self, fresh))).
  generalize (self, fresh). induction calls as [| m calls IH]; intros state.
  - reflexivity.
  - cbn [fold_left]. rewrite IH. apply after_call_keeps_chain.
Qed.

(** C8.  Whatever resolve methods are called on a handler in between,
    memoising or not, a later resolution of the response cookies returns the
    set the first one returned, and so does a later resolution of the
    response headers: the calls leave the ownership chain as it is, and each
    resolution merges it anew into the same set, the one that holds for
    every key, or name, what the innermost layer that sets it has set. *)
Theorem resolution_is_repeatable (self : HTTPRouteHandler)
    (calls : list MethodCall) (fresh : nat) :
  let later := fst (after_calls calls self fresh) in
  ownership_layers later = ownership_layers self
  /\ resolve_response_cookies later = resolve_response_cookies self
  /\ resolve_response_headers later = resolve_response_headers self
  /\ (forall c : Cookie,
        In c (resolve_response_cookies later) <->
        innermost_cookie (key c) (ownership_layers self) = Some c)
  /\ (forall h : ResponseHeader,
        h ∈ resolve_response_headers later <->
        innermost_header (name h) (ownership_layers self) = Some h).
Proof.
  intros later. pose proof (after_calls_keep_chain calls self fresh) as Hchain.
  fold later in Hchain. split; [exact Hchain |].
  split; [unfold resolve_response_cookies; rewrite Hchain; reflexivity |].
  split; [unfold resolve_response_headers; rewrite Hchain; reflexivity |].
  split.
  - intros c. unfold resolve_response_cookies.
    rewrite (In_find_key _ c (NoDup_resolve (ownership_layers later))).
    rewrite find_key_resolve, Hchain. reflexivity.
  - intros h. rewrite elem_of_resolve_response_headers, Hchain. reflexivity.
Qed.

End RepeatedResolution.

(** A handler that sets a cookie and a header its router sets too: after a
    run of calls that memoises a hook and the response handler, the two
    resolutions return what they returned before the run. *)
Lemma resolution_is_repeatable_witness :
  fst (after_calls (framework := sample_framework) sample_calls
         sample_resolving_handler 0)
  <> sample_resolving_handler
  /\ resolve_response_cookies
       (fst (after_calls (framework := sample_framework) sample_calls
               sample_resolving_handler 0))
     = [sample_cookie "a" "2"; sample_cookie "b" "1"]
  /\ resolve_response_headers
       (fst (after_calls (framework := sample_framework) sample_calls
               sample_resolving_handler 0))
     = [sample_header "x-frame" "deny"; sample_header "x-token" "2"].
Proof.
  destruct (@resolution_is_repeatable sample_framework sample_resolving_handler
              sample_calls 0) as (_ & Hcookies & Hheaders & _ & _).
  split; [discriminate |].
  split; [rewrite Hcookies; reflexivity |].
  rewrite Hheaders. vm_compute. reflexivity.
Defined.

(** ** The send wrapper of the session middleware *)

Section SessionProperties.
Context {B E : Type} {session_backend : Session.BaseSessionBackend B E}.

Lemma persists_count (b b' : B) (sc : Session.Scope) (app : list Session.AppAction)
    (es : list Session.Event) :
  persists b sc app es b' ->
  List.length (List.filter Session.is_store es)
  = List.length (List.filter Session.is_response_start (Session.sent_messages app)).
Proof.
  induction 1 as [| | b b' sc m rest es Hother _ IH | b b1 b' sc m m' rest es Hstart _ _ IH].
  - reflexivity.
  - assumption.
  - cbn. unfold Session.is_response_start at 1.
    apply String.eqb_neq in Hother. rewrite Hother. exact IH.
  - cbn. unfold Session.is_response_start at 1.
    apply String.eqb_eq in Hstart. rewrite Hstart. cbn. rewrite IH. reflexivity.
Qed.

Lemma run_app_persists (app : list Session.AppAction) :
  forall w w' : Session.World B,
  Session.run_app Session.wrapped_send app w = inr w' ->
  exists es : list Session.Event,
    Session.trace w' = (Session.trace w ++ es)%list
    /\ Session.scope_type (Session.scope w') = Session.scope_type (Session.scope w)
    /\ persists (Session.backend w) (Session.scope w) app es (Session.backend w').
Proof.
  induction app as [| [s | m] rest IH]; intros w w' Hrun; cbn [Session.run_app] in Hrun.
  - injection Hrun as <-. exists []. rewrite app_nil_r.
    repeat split. constructor.
  - destruct (IH _ _ Hrun) as (es & Htrace & Htype & Hper).
    exists es. repeat split; [exact Htrace | exact Htype |].
    constructor. exact Hper.
  - unfold Session.wrapped_send in Hrun.
    destruct (String.eqb_spec (Session.msg_type m) "http.response.start") as [Hstart | Hother];
      cbn [negb] in Hrun.
    + cbn [Session.emit Session.backend Session.scope] in Hrun.
      destruct (Session.store_in_message (Session.backend w)
                  (Session.session (Session.scope w)) m (Session.scope w))
        as [e | [m' b1]] eqn:Hstore; [discriminate |].
      destruct (IH _ _ Hrun) as (es & Htrace & Htype & Hper).
      cbn in Htrace, Htype, Hper.
      exists (Session.StoreInMessage (Session.session (Session.scope w)) m
              :: Session.Send m' :: es).
      repeat split.
      * rewrite Htrace, <- !app_assoc. reflexivity.
      * exact Htype.
      * econstructor; eassumption.
    + destruct (IH _ _ Hrun) as (es & Htrace & Htype & Hper).
      cbn in Htrace, Htype, Hper.
      exists (Session.Send m :: es). repeat split.
      * rewrite Htrace, <- app_assoc. reflexivity.
      * exact Htype.
      * constructor; assumption.
Qed.

(** C2 (as amended).  Of the messages an application sends through the
    wrapped send, every message of type ["http.response.start"], not only
    the first, has [store_in_message] called with the session the scope
    holds at that moment before it is handed to the real send; every other
    message is handed on as it is, without a call of the backend.  So the
    backend is called as often as such messages are sent. *)
Theorem every_response_start_persists (app : list Session.AppAction)
    (w w' : Session.World B) :
  Session.run_app Session.wrapped_send app w = inr w' ->
  exists es : list Session.Event,
    Session.trace w' = (Session.trace w ++ es)%list
    /\ persists (Session.backend w) (Session.scope w) app es (Session.backend w')
    /\ List.length (List.filter Session.is_store es)
       = List.length (List.filter Session.is_response_start (Session.sent_messages app)).
Proof.
  intros Hrun. destruct (run_app_persists app w w' Hrun) as (es & Htrace & _ & Hper).
  exists es. repeat split; [exact Htrace | exact Hper |].
  apply (persists_count _ _ _ _ _ Hper).
Qed.

(** The body of [__call__]: the session is loaded into the scope, and the
    application then runs with the wrapped send. *)
Lemma SessionMiddleware_call_persists (app : list Session.AppAction)
    (w w' : Session.World B) :
  Session.SessionMiddleware__call__ app w = inr w' ->
  exists (loaded : Session.ScopeSession) (b : B) (es : list Session.Event),
    Session.load_from_connection (Session.backend w) (Session.scope w) = inr (loaded, b)
    /\ Session.trace w' = (Session.trace w ++ es)%list
    /\ persists b
         {| Session.scope_type := Session.scope_type (Session.scope w);
            Session.session := Some loaded |}
         app es (Session.backend w').
Proof.
  unfold Session.SessionMiddleware__call__. intros Hcall.
  destruct (Session.load_from_connection (Session.backend w) (Session.scope w))
    as [e | [loaded b]]; [discriminate |].
  destruct (run_app_persists app _ _ Hcall) as (es & Htrace & _ & Hper).
  exists loaded, b, es. repeat split; assumption.
Qed.

End SessionProperties.

Lemma every_response_start_persists_witness :
  exists w' : Session.World nat,
    Session.run_app (Session.wrapped_send (session_backend := counting_backend)) sample_app sample_world
    = inr w'
    /\ exists es : list Session.Event,
         Session.trace w' = (Session.trace sample_world ++ es)%list
         /\ persists (session_backend := counting_backend) (Session.backend sample_world)
                     (Session.scope sample_world) sample_app es (Session.backend w')
         /\ List.length (List.filter Session.is_store es)
            = List.length (List.filter Session.is_response_start
                                       (Session.sent_messages sample_app)).
Proof.
  eexists. split; [vm_compute; reflexivity |].
  apply (every_response_start_persists (session_backend := counting_backend) sample_app sample_world).
  vm_compute. reflexivity.
Defined.

(** C2, the claim as stated fails: when two messages of type
    ["http.response.start"] are sent, the backend stores the session for the
    second one too. *)
Lemma second_response_start_persists_again :
  exists w' : Session.World nat,
    Session.run_app (Session.wrapped_send (session_backend := counting_backend))
      [Session.CallSend response_start; Session.CallSend response_start] sample_world
    = inr w'
    /\ List.filter Session.is_store (Session.trace w')
       = [Session.StoreInMessage None response_start;
          Session.StoreInMessage None response_start]
    /\ Session.backend w' = 2%nat.
Proof.
  eexists. split; [vm_compute; reflexivity |]. split; vm_compute; reflexivity.
Qed.

(** * Further properties *)

(** ** Response headers *)

(** X1.  The resolved response headers hold at most one header per name,
    and the header kept for a name is the one set by the innermost layer
    that sets this name (where a layer's [etag] goes before its
    [cache_control], and that before the headers it lists). *)
Theorem resolved_headers_innermost_layer_wins (self : HTTPRouteHandler) :
  NoDup (name <$> resolve_response_headers self)
  /\ (forall h : ResponseHeader,
        h ∈ resolve_response_headers self <->
        innermost_header (name h) (ownership_layers self) = Some h)
  /\ (forall h : ResponseHeader,
        h ∈ resolve_response_headers self ->
        exists (outer : list Layer) (layer : Layer) (inner : list Layer),
          ownership_layers self = (outer ++ layer :: inner)%list
          /\ layer_header (name h) layer = Some h
          /\ Forall (fun l => layer_header (name h) l = None) inner).
Proof.
  split; [apply NoDup_resolve_response_headers | split].
  - apply elem_of_resolve_response_headers.
  - intros h Hin. apply elem_of_resolve_response_headers in Hin.
    apply innermost_header_Some, Hin.
Qed.

(** ** The cache of the memoised helpers *)

Section LruCacheProperties.
Context {K V : Type} (key_eq : K -> K -> bool) (maxsize : nat) (user_function : K -> V).

Lemma lru_find_Some (cache : list (K * V)) (k : K) (hit : K * V) (others : list (K * V)) :
  lru_find key_eq cache k = Some (hit, others) ->
  key_eq (fst hit) k = true /\ List.length cache = S (List.length others).
Proof.
  revert hit others. induction cache as [| entry rest IH]; intros hit others;
    cbn [lru_find]; [discriminate |].
  destruct (key_eq (fst entry) k) eqn:Hentry.
  - intros Hfound. injection Hfound as <- <-. split; [exact Hentry | reflexivity].
  - destruct (lru_find key_eq rest k) as [[hit' others'] |]; [| discriminate].
    intros Hfound. injection Hfound as <- <-.
    destruct (IH _ _ eq_refl) as [Hkey Hlen]. split; [exact Hkey |].
    cbn. rewrite Hlen. reflexivity.
Qed.

(** The cache never grows beyond [maxsize]. *)
Lemma lru_cache_size (cache : list (K * V)) (k : K) :
  (List.length cache <= maxsize)%nat ->
  (List.length (snd (lru_cache key_eq maxsize user_function cache k)) <= maxsize)%nat.
Proof.
  intros Hsize. unfold lru_cache.
  destruct (lru_find key_eq cache k) as [[hit others] |] eqn:Hfind; cbn [snd].
  - apply lru_find_Some in Hfind as [_ Hlen]. cbn. lia.
  - rewrite length_firstn. lia.
Qed.

(** After a call, the entry at the front of the cache holds the result of
    the call, under arguments equal to those of the call. *)
Lemma lru_cache_front (cache : list (K * V)) (k : K) :
  (0 < maxsize)%nat ->
  exists (entry : K * V) (rest : list (K * V)),
    snd (lru_cache key_eq maxsize user_function cache k) = entry :: rest
    /\ snd entry = fst (lru_cache key_eq maxsize user_function cache k)
    /\ (fst entry = k \/ key_eq (fst entry) k = true).
Proof.
  intros Hmax. unfold lru_cache.
  destruct (lru_find key_eq cache k) as [[hit others] |] eqn:Hfind; cbn [fst snd].
  - exists hit, others. repeat split. right. apply (lru_find_Some _ _ _ _ Hfind).
  - destruct maxsize as [| m]; [lia |]. cbn [firstn].
    eexists. eexists. repeat split. left. reflexivity.
Qed.

(** A call with arguments equal to those of the call before it is served
    from the cache: it returns the result of that call. *)
Lemma lru_cache_hit_again (cache : list (K * V)) (k k' : K) :
  (forall a b c : K, key_eq a b = true -> key_eq b c = true -> key_eq a c = true) ->
  (0 < maxsize)%nat ->
  key_eq k k' = true ->
  fst (lru_cache key_eq maxsize user_function
         (snd (lru_cache key_eq maxsize user_function cache k)) k')
  = fst (lru_cache key_eq maxsize user_function cache k).
Proof.
  intros Htrans Hmax Heq.
  destruct (lru_cache_front cache k Hmax) as (entry & rest & -> & <- & Hentry).
  assert (Hhit : key_eq (fst entry) k' = true).
  { destruct Hentry as [-> | Hentry]; [exact Heq | exact (Htrans _ _ _ Hentry Heq)]. }
  unfold lru_cache at 1. cbn [lru_find]. rewrite Hhit. reflexivity.
Qed.

End LruCacheProperties.

(** ** Normalised headers *)

Section NormalizedHeaders.

Implicit Types (n : string) (h : ResponseHeader) (headers : list ResponseHeader).

Lemma lookup_normalize_fold n headers : forall d : gmap string (option string),
  fold_left
    (fun d header =>
       if header_documentation_only header then d
       else <[name header := header_value header]> d)
    headers d !! n =
  match find (fun h => negb (header_documentation_only h) && String.eqb (name h) n)
             (rev headers) with
  | Some h => Some (header_value h)
  | None => d !! n
  end.
Proof.
  induction headers as [| h headers IH]; intros d; [reflexivity |].
  cbn [fold_left rev]. rewrite IH, find_app_first.
  destruct (find _ (rev headers)); [reflexivity |]. cbn.
  destruct (header_documentation_only h); cbn; [reflexivity |].
  destruct (String.eqb_spec (name h) n) as [<- | Hne].
  - apply lookup_insert_eq.
  - apply lookup_insert_ne, Hne.
Qed.

Lemma rev_reverse {A : Type} (l : list A) : rev l = reverse l.
Proof. rewrite rev_alt. reflexivity. Qed.

Lemma find_by_name_absent (q : ResponseHeader -> bool) headers n :
  n ∉ (name <$> headers) ->
  find (fun x => q x && String.eqb (name x) n) headers = None.
Proof.
  induction headers as [| a headers IH]; [reflexivity |].
  rewrite fmap_cons, not_elem_of_cons. intros [Hne Hno]. cbn.
  destruct (String.eqb_spec (name a) n) as [Heq | _]; [congruence |].
  rewrite andb_false_r. apply IH, Hno.
Qed.

Lemma find_by_name_unique (q : ResponseHeader -> bool) headers h :
  NoDup (name <$> headers) ->
  h ∈ headers ->
  find (fun x => q x && String.eqb (name x) (name h)) headers
  = if q h then Some h else None.
Proof.
  induction headers as [| a headers IH]; [intros _ Hin; inversion Hin |].
  rewrite fmap_cons, NoDup_cons. intros [Hfresh Hnodup] Hin.
  apply elem_of_cons in Hin as [-> | Hin]; cbn.
  - rewrite String.eqb_refl, andb_true_r.
    destruct (q a); [reflexivity |]. apply find_by_name_absent, Hfresh.
  - destruct (String.eqb_spec (name a) (name h)) as [Heq | _].
    + exfalso. apply Hfresh. rewrite Heq. apply list_elem_of_fmap. eauto.
    + rewrite andb_false_r. apply IH; assumption.
Qed.

(** X2.  On a call that is not served from the cache, the normalised
    headers of a handler map a name to the value of the header that the
    innermost layer setting this name gives it, unless that header is
    documentation-only: then the name is left out, also when a layer
    further out sets a header of this name that is not. *)
Theorem normalized_headers_of_resolved (self : HTTPRouteHandler)
    (cache : list (list ResponseHeader * gmap string (option string))) (n : string) :
  lru_find (fun a b => bool_decide (a = b)) cache (resolve_response_headers self) = None ->
  fst (_normalize_headers cache (resolve_response_headers self)) !! n
  = match innermost_header n (ownership_layers self) with
    | Some h => if header_documentation_only h then None else Some (header_value h)
    | None => None
    end.
Proof.
  intros Hmiss. unfold _normalize_headers, lru_cache. rewrite Hmiss. cbn [fst].
  unfold _normalize_headers__wrapped__. rewrite lookup_normalize_fold, lookup_empty.
  pose proof (NoDup_resolve_response_headers self) as Hnodup.
  destruct (innermost_header n (ownership_layers self)) as [h |] eqn:Hn.
  - pose proof (innermost_header_name _ _ _ Hn) as Hname. subst n.
    apply elem_of_resolve_response_headers in Hn.
    rewrite (find_by_name_unique (fun x => negb (header_documentation_only x))).
    + destruct (header_documentation_only h); reflexivity.
    + rewrite rev_reverse, fmap_reverse, reverse_Permutation. exact Hnodup.
    + rewrite rev_reverse. apply elem_of_reverse, Hn.
  - rewrite find_by_name_absent; [reflexivity |].
    rewrite rev_reverse, fmap_reverse, elem_of_reverse. intros Hin.
    apply list_elem_of_fmap in Hin as (h & -> & Hin).
    apply elem_of_resolve_response_headers in Hin. congruence.
Qed.

End NormalizedHeaders.

(** ** Filtered cookies *)

Section FilteredCookies.

Implicit Types (local layered : list Cookie) (c : Cookie).

Lemma NoDup_key_filter (p : Cookie -> bool) (s : list Cookie) :
  NoDup (map key s) -> NoDup (map key (List.filter p s)).
Proof.
  induction s as [| a s IH]; cbn [List.filter map]; [constructor |].
  rewrite NoDup_cons. intros [Hfresh Hnodup].
  destruct (p a); [| apply IH, Hnodup].
  cbn [map]. apply NoDup_cons. split; [| apply IH, Hnodup].
  intros Hin. apply Hfresh. apply list_elem_of_In in Hin. apply list_elem_of_In.
  apply in_map_iff in Hin as (x & Hx & Hin). apply filter_In in Hin as [Hin _].
  rewrite <- Hx. apply in_map, Hin.
Qed.

Lemma set_contains_In (s : list Cookie) c :
  set_contains s c = true <-> In (key c) (map key s).
Proof.
  rewrite set_contains_find, <- find_key_In.
  destruct (find_key (key c) s); split; congruence.
Qed.

Lemma frozenset_eq_trans (a b d : list Cookie) :
  frozenset_eq a b = true -> frozenset_eq b d = true -> frozenset_eq a d = true.
Proof.
  unfold frozenset_eq. rewrite !andb_true_iff, !Nat.eqb_eq, !forallb_forall.
  intros [Hlen Hsub] [Hlen' Hsub']. split; [congruence |].
  intros x Hx. apply set_contains_In.
  specialize (Hsub x Hx). apply set_contains_In in Hsub.
  apply in_map_iff in Hsub as (y & Hy & Hin).
  specialize (Hsub' y Hin). apply set_contains_In in Hsub'.
  rewrite <- Hy. exact Hsub'.
Qed.

Lemma filter_cookies_key_eq_trans (a b d : list Cookie * list Cookie) :
  filter_cookies_key_eq a b = true -> filter_cookies_key_eq b d = true ->
  filter_cookies_key_eq a d = true.
Proof.
  unfold filter_cookies_key_eq. rewrite !andb_true_iff.
  intros [H1 H2] [H1' H2']. split; eapply frozenset_eq_trans; eassumption.
Qed.

(** What the function under the decorator returns, by the first cookie
    with a key in each of its two arguments. *)
Lemma In_filter_cookies_wrapped local layered c :
  In c (_filter_cookies__wrapped__ (local, layered)) <->
  documentation_only c = false
  /\ (find_key (key c) local = Some c
      \/ (find_key (key c) local = None /\ find_key (key c) layered = Some c)).
Proof.
  unfold _filter_cookies__wrapped__. cbn [fst snd]. rewrite filter_In.
  assert (Hnodup : NoDup (map key (set_update (set_update [] local) layered))).
  { apply NoDup_set_update, NoDup_set_update. constructor. }
  rewrite (In_find_key _ _ Hnodup), !find_key_set_update. cbn [find_key find].
  rewrite negb_true_iff.
  destruct (find_key (key c) local) as [x |]; split.
  - intros [Hx Hdoc]. split; [exact Hdoc | left; exact Hx].
  - intros [Hdoc [Hx | [Hx _]]]; [split; assumption | discriminate].
  - intros [Hx Hdoc]. split; [exact Hdoc | right; split; [reflexivity | exact Hx]].
  - intros [Hdoc [Hx | [_ Hx]]]; [discriminate | split; assumption].
Qed.

(** X3.  On a call that is not served from the cache, [_filter_cookies]
    returns the cookies of the two sets that are not documentation-only,
    one per key, and a local cookie goes before a layered cookie with the
    same key: a documentation-only local cookie removes that key from the
    result. *)
Theorem filter_cookies_local_first
    (cache : list ((list Cookie * list Cookie) * list Cookie)) local layered :
  NoDup (map key local) ->
  NoDup (map key layered) ->
  lru_find filter_cookies_key_eq cache (local, layered) = None ->
  NoDup (map key (fst (_filter_cookies cache local layered)))
  /\ forall c : Cookie,
       In c (fst (_filter_cookies cache local layered)) <->
       documentation_only c = false
       /\ (In c local \/ (In c layered /\ ~ In (key c) (map key local))).
Proof.
  intros Hlocal Hlayered Hmiss. unfold _filter_cookies, lru_cache.
  rewrite Hmiss. cbn [fst]. split.
  - unfold _filter_cookies__wrapped__. cbn [fst snd].
    apply NoDup_key_filter, NoDup_set_update, NoDup_set_update. constructor.
  - intros c. rewrite In_filter_cookies_wrapped.
    rewrite (In_find_key _ c Hlocal), (In_find_key _ c Hlayered), find_key_None.
    tauto.
Qed.

(** X4.  A call of [_filter_cookies] whose two sets have the same keys as
    those of the call before it is served from the cache: it returns the
    cookies of that earlier call, with their values, not its own. *)
Theorem filter_cookies_served_from_cache
    (cache : list ((list Cookie * list Cookie) * list Cookie))
    (local layered local' layered' : list Cookie) :
  frozenset_eq local local' = true ->
  frozenset_eq layered layered' = true ->
  fst (_filter_cookies (snd (_filter_cookies cache local layered)) local' layered')
  = fst (_filter_cookies cache local layered).
Proof.
  intros Hlocal Hlayered. unfold _filter_cookies.
  apply lru_cache_hit_again.
  - apply filter_cookies_key_eq_trans.
  - lia.
  - unfold filter_cookies_key_eq. cbn [fst snd]. rewrite Hlocal, Hlayered. reflexivity.
Qed.

(** X5.  The cookies a response leaves with, when the call is not served
    from the cache: of the cookies the response carries and the resolved
    cookies of the layers, the first cookie the response carries with a key
    goes before the cookie of the innermost layer listing the key, and a
    cookie is kept only if it is not documentation-only. *)
Theorem response_cookie_precedence (self : HTTPRouteHandler)
    (cache : list ((list Cookie * list Cookie) * list Cookie))
    (data_cookies : list Cookie) :
  lru_find filter_cookies_key_eq cache
           (frozenset data_cookies, resolve_response_cookies self) = None ->
  forall c : Cookie,
    In c (fst (_filter_cookies cache (frozenset data_cookies)
                               (resolve_response_cookies self))) <->
    documentation_only c = false
    /\ (find_key (key c) data_cookies = Some c
        \/ (~ In (key c) (map key data_cookies)
            /\ innermost_cookie (key c) (ownership_layers self) = Some c)).
Proof.
  intros Hmiss c. unfold _filter_cookies, lru_cache. rewrite Hmiss. cbn [fst].
  rewrite In_filter_cookies_wrapped. unfold frozenset, resolve_response_cookies.
  rewrite find_key_set_update, find_key_resolve, <- find_key_None.
  cbn [find_key find]. reflexivity.
Qed.

End FilteredCookies.

(** ** The response class and the after-request hook *)

Lemma head_response_class_innermost (layers : list Layer) :
  innermost_response_class layers (list.head (omap response_class (rev layers))).
Proof.
  induction layers as [| l layers IH] using rev_ind; [constructor |].
  rewrite rev_unit. cbn [omap list_omap].
  destruct (response_class l) as [c |] eqn:Hl.
  - cbn. exists layers, l, []. repeat split; [exact Hl | constructor].
  - destruct (list.head (omap response_class (rev layers))) as [c |].
    + destruct IH as (outer & layer & inner & -> & Hlayer & Hinner).
      exists outer, layer, (inner ++ [l])%list. repeat split.
      * rewrite <- app_assoc. reflexivity.
      * exact Hlayer.
      * apply Forall_app. split; [exact Hinner | constructor; [exact Hl | constructor]].
    + apply Forall_app. split; [exact IH | constructor; [exact Hl | constructor]].
Qed.

(** X6.  The resolved response class is the one of the innermost layer of
    the ownership chain that sets a response class, and [Response] when no
    layer sets one. *)
Theorem response_class_of_innermost_layer (self : HTTPRouteHandler) :
  exists r : option PyClass,
    innermost_response_class (ownership_layers self) r
    /\ resolve_response_class self = default Response_class r.
Proof.
  exists (list.head (omap response_class (rev (ownership_layers self)))).
  split; [apply head_response_class_innermost | reflexivity].
Qed.

Section HandlerClosure.
Context {framework : Framework}.

(** X7.  The response handler made for a handler that has none yet closes
    over the after-request hook of the innermost layer that defines one
    ([None] when no layer does) and over the resolved response cookies. *)
Theorem response_handler_closes_over_innermost_hook (self self' : HTTPRouteHandler)
    (handler : FunctionObject) (fresh next : nat) :
  _resolved_response_handler self = Empty ->
  resolve_response_handler self fresh = Ok (handler, self', next) ->
  innermost_hook after_request (ownership_layers self)
                 (handler_after_request (code handler))
  /\ handler_cookies (code handler) = resolve_response_cookies self.
Proof.
  intros Hempty. unfold resolve_response_handler. rewrite Hempty.
  destruct (get_signature self) as [sig | e]; cbn [mbind Result_bind]; [| discriminate].
  intros Hok. injection Hok as <- _ _. cbn [code].
  destruct (is_class_and_subclass (return_annotation sig) ResponseContainer);
    [| destruct (is_class_and_subclass (return_annotation sig) Response);
       [| destruct (is_async_callable (return_annotation sig)
                    || annotation_in_ASGIApp (return_annotation sig))]];
    cbn [handler_after_request handler_cookies];
    (split; [apply last_hook_innermost | reflexivity]).
Qed.

End HandlerClosure.

(** ** Construction *)

Lemma normalize_enum_member (m : HttpMethod) :
  _normalize_http_method (SingleMethod (MethodEnum m)) = Ok {[HttpMethod_value m]}.
Proof. destruct m; vm_compute; reflexivity. Qed.

Lemma existsb_eqb_In (x : string) (l : list string) :
  existsb (String.eqb x) l = true <-> In x l.
Proof.
  rewrite existsb_exists. split.
  - intros (y & Hin & Heq). apply String.eqb_eq in Heq. subst y. exact Hin.
  - intros Hin. exists x. split; [exact Hin | apply String.eqb_refl].
Qed.

(** X8.  A semantic decorator makes a handler for exactly its own method.
    It fails only when [http_method] is among the extra keyword arguments,
    and then with the [ImproperlyConfiguredException] that says so. *)
Theorem semantic_decorator_fixes_method (cls : HandlerClass) (m : HttpMethod)
    (a : InitArgs) :
  semantic_method cls = Some m ->
  match new_handler cls a with
  | Ok self =>
      ~ In "http_method" (arg_kwargs a)
      /\ handler_class self = cls
      /\ http_methods self = {[HttpMethod_value m]}
  | Raise e =>
      In "http_method" (arg_kwargs a)
      /\ e = ImproperlyConfiguredException MSG_SEMANTIC_ROUTE_HANDLER_WITH_HTTP
  end.
Proof.
  intros Hcls.
  assert (Hnew : new_handler cls a = semantic__init__ cls m a).
  { destruct cls; cbn in Hcls; try discriminate; injection Hcls as <-; reflexivity. }
  rewrite Hnew. unfold semantic__init__.
  destruct (existsb (String.eqb "http_method") (arg_kwargs a)) eqn:Hkw.
  - split; [apply existsb_eqb_In, Hkw | reflexivity].
  - unfold HTTPRouteHandler__init__. cbn [http_method_truthy negb from_option id].
    rewrite normalize_enum_member. cbn [mbind Result_bind].
    cbn [handler_class http_methods]. repeat split.
    rewrite <- existsb_eqb_In, Hkw. discriminate.
Qed.

(** X9.  The constructor of [HTTPRouteHandler] fails in two ways: with an
    [ImproperlyConfiguredException] when [http_method] is missing or empty,
    and with a [ValidationException] naming the token when a token is not a
    known method.  Otherwise the handler's methods are the upper-case names
    of the tokens, a non-empty set of known methods. *)
Theorem route_constructor_outcomes (a : InitArgs) :
  match new_handler route a with
  | Ok self =>
      http_method_truthy (arg_http_method a) = true
      /\ (forall n, n ∈ http_methods self <->
            exists t, In t (method_tokens (default (MethodSeq []) (arg_http_method a)))
                      /\ method_name t = n)
      /\ http_methods self ⊆ HTTP_METHOD_NAMES
      /\ http_methods self <> ∅
  | Raise (ImproperlyConfiguredException detail) =>
      http_method_truthy (arg_http_method a) = false
      /\ detail = "An http_method kwarg is required"
  | Raise (ValidationException detail) =>
      http_method_truthy (arg_http_method a) = true
      /\ exists t, In t (method_tokens (default (MethodSeq []) (arg_http_method a)))
                   /\ (method_name t ∉ HTTP_METHOD_NAMES)
                   /\ detail = "Invalid HTTP method: " ++ method_name t
  | Raise (AttributeError _) => False
  end.
Proof.
  pose proof (new_handler_methods_nonempty route a) as Hnonempty.
  cbn [new_handler] in *. unfold HTTPRouteHandler__init__ in *.
  destruct (http_method_truthy (arg_http_method a)); cbn [negb] in *;
    [| split; reflexivity].
  pose proof (normalize_http_method_spec (default (MethodSeq []) (arg_http_method a)))
    as Hspec.
  destruct (_normalize_http_method _) as [methods | e]; cbn [mbind Result_bind] in *.
  - destruct Hspec as (_ & Hmem & Hsub & _ & _). cbn [http_methods].
    repeat split; try assumption; try apply Hmem.
    apply (Hnonempty _ eq_refl).
  - destruct Hspec as (t & Hin & Hbad & ->). split; [reflexivity |].
    exists t. repeat split; assumption.
Qed.

(** ** Normalisation and the order of the tokens *)

(** X10.  What normalisation returns depends only on the upper-case names
    of the tokens: their order, their repetition and their letter case do
    not matter.  Normalising the names of a result again gives the result
    back. *)
Theorem normalize_http_method_by_names (a : HttpMethodArg) (output : gset string) :
  _normalize_http_method a = Ok output ->
  (forall b : HttpMethodArg,
     (forall n, (exists t, In t (method_tokens a) /\ method_name t = n) <->
                (exists t, In t (method_tokens b) /\ method_name t = n)) ->
     _normalize_http_method b = Ok output)
  /\ _normalize_http_method (MethodSeq (map MethodStr (elements output))) = Ok output.
Proof.
  intros Hok.
  pose proof (normalize_http_method_spec a) as Ha. rewrite Hok in Ha.
  destruct Ha as (Hknown & Hmem & Hsub & Hupper & _).
  assert (Hnames : forall b : HttpMethodArg,
            (forall n, (exists t, In t (method_tokens a) /\ method_name t = n) <->
                       (exists t, In t (method_tokens b) /\ method_name t = n)) ->
            _normalize_http_method b = Ok output).
  { intros b Hsame. pose proof (normalize_http_method_spec b) as Hb.
    destruct (_normalize_http_method b) as [output' | e].
    - destruct Hb as (_ & Hmem' & _). f_equal. apply set_eq. intros n.
      rewrite Hmem, Hmem'. symmetry. apply Hsame.
    - destruct Hb as (t & Hin & Hbad & _). exfalso. apply Hbad.
      destruct (proj2 (Hsame (method_name t))) as (t' & Hin' & Hname); [eauto |].
      rewrite <- Hname. rewrite Forall_forall in Hknown.
      apply Hknown, list_elem_of_In, Hin'. }
  split; [exact Hnames |].
  apply Hnames. intros n. rewrite <- Hmem. cbn [method_tokens]. split.
  - intros Hn. exists (MethodStr n). split.
    + apply in_map, list_elem_of_In, elem_of_elements, Hn.
    + cbn. apply Hupper, Hn.
  - intros (t & Hin & <-). apply in_map_iff in Hin as (s & <- & Hin).
    apply list_elem_of_In, elem_of_elements in Hin. cbn.
    rewrite (Hupper _ Hin). exact Hin.
Qed.

(** ** Registration *)

Section RegistrationOutcome.
Context {framework : Framework}.

Lemma set_media_type_same (s : HTTPRouteHandler) : set_media_type s (media_type s) = s.
Proof. destruct s. reflexivity. Qed.

(** What the validation of every HTTP handler returns when it returns. *)
Lemma validate_Ok_result (s s' : HTTPRouteHandler) :
  HTTPRouteHandler_validate_handler_function s = Ok s' ->
  exists sig : Signature,
    signature s = Some sig
    /\ s' = if (is_class_and_subclass (return_annotation sig) File
                || is_class_and_subclass (return_annotation sig) FileResponse)
               && media_type_in_JSON_HTML (media_type s)
            then set_media_type s (MediaTypeEnum TEXT)
            else s.
Proof.
  unfold HTTPRouteHandler_validate_handler_function, get_signature.
  destruct (base_validate_handler_function s); [discriminate |].
  destruct (signature s) as [sig |]; cbn [mbind Result_bind]; [| discriminate].
  intros Hok. exists sig. split; [reflexivity |].
  destruct (return_annotation sig); try discriminate; cbv zeta in Hok;
    repeat match type of Hok with
           | context [if ?b then Raise _ else _] => destruct b; [discriminate |]
           end;
    injection Hok as <-; reflexivity.
Qed.

(** When the validation of every HTTP handler returns. *)
Lemma validate_Ok_iff (self : HTTPRouteHandler) (fn : Signature) :
  (exists s, HTTPRouteHandler_validate_handler_function (set_signature self fn) = Ok s)
  <->
  base_validate_handler_function (set_signature self fn) = None
  /\ return_annotation fn <> SignatureEmpty
  /\ (no_body_status (status_code self) = true ->
      annotation_in_None (return_annotation fn) = true)
  /\ (is_class_and_subclass (return_annotation fn) Redirect = true ->
      is_redirect_status (status_code self) = true)
  /\ ~ In "socket" (parameters fn)
  /\ ~ (In "data" (parameters fn) /\ "GET" ∈ http_methods self).
Proof.
  unfold HTTPRouteHandler_validate_handler_function.
  rewrite <- !existsb_eqb_In.
  cbn [get_signature set_signature signature status_code http_methods media_type].
  destruct (base_validate_handler_function (set_signature self fn)) as [e |].
  { split; [intros [s Hs]; discriminate | intros [Hbase _]; discriminate]. }
  cbn [mbind Result_bind].
  destruct ((is_class_and_subclass (return_annotation fn) File
             || is_class_and_subclass (return_annotation fn) FileResponse)
            && media_type_in_JSON_HTML (media_type self));
    cbn [http_methods set_media_type set_signature].
  all: set (body := no_body_status (status_code self)
                    && negb (annotation_in_None (return_annotation fn))).
  all: set (redirect := is_class_and_subclass (return_annotation fn) Redirect
                        && negb (is_redirect_status (status_code self))).
  all: set (socket := existsb (String.eqb "socket") (parameters fn)).
  all: set (data := existsb (String.eqb "data") (parameters fn)
                    && bool_decide ("GET" ∈ http_methods self)).
  all: assert (Hbody : body = false <->
                 (no_body_status (status_code self) = true ->
                  annotation_in_None (return_annotation fn) = true))
         by (unfold body;
             destruct (no_body_status (status_code self)),
                      (annotation_in_None (return_annotation fn));
             cbn; intuition congruence).
  all: assert (Hredirect : redirect = false <->
                 (is_class_and_subclass (return_annotation fn) Redirect = true ->
                  is_redirect_status (status_code self) = true))
         by (unfold redirect;
             destruct (is_class_and_subclass (return_annotation fn) Redirect),
                      (is_redirect_status (status_code self));
             cbn; intuition congruence).
  all: assert (Hdata : data = false <->
                 ~ (existsb (String.eqb "data") (parameters fn) = true
                    /\ "GET" ∈ http_methods self))
         by (unfold data;
             destruct (existsb (String.eqb "data") (parameters fn));
             case_bool_decide; cbn; intuition congruence).
  all: rewrite <- Hbody, <- Hredirect, <- Hdata, not_true_iff_false.
  all: clearbody body redirect socket data; clear Hbody Hredirect Hdata.
  all: split;
    [ intros [s Hs];
      destruct (return_annotation fn); try discriminate;
      destruct body, redirect, socket, data; try discriminate;
      repeat split; congruence
    | intros (_ & Hann & -> & -> & -> & ->);
      destruct (return_annotation fn); try congruence; eexists; reflexivity ].
Qed.

(** Registration, once the validation of every HTTP handler has returned. *)
Lemma call_of_validate_Ok (self s1 : HTTPRouteHandler) (fn : Signature) :
  HTTPRouteHandler_validate_handler_function (set_signature self fn) = Ok s1 ->
  HTTPRouteHandler__call__ self fn =
  if match handler_class self with head => true | _ => false end
     && negb (annotation_in_None_or_file (return_annotation fn)
              || is_class_and_subclass (return_annotation fn) File
              || is_class_and_subclass (return_annotation fn) FileResponse)
  then Raise (ImproperlyConfiguredException
                "A response to a head request should not have a body")
  else if String.eqb (media_type_str (media_type s1)) ""
  then Ok (set_media_type s1
             (MediaTypeEnum (if is_text_annotation (return_annotation fn)
                             then TEXT else JSON)))
  else Ok s1.
Proof.
  intros Hval. unfold HTTPRouteHandler__call__, _validate_handler_function.
  assert (Hsig : get_signature s1 = Ok fn).
  { unfold get_signature. rewrite (validate_keeps_signature _ _ Hval). reflexivity. }
  cbn [handler_class set_signature].
  destruct (handler_class self); cbn [andb];
    unfold head_validate_handler_function; rewrite Hval;
    cbn [mbind Result_bind]; rewrite ?Hsig; cbn [mbind Result_bind];
    try destruct (negb _); cbn [mbind Result_bind];
    destruct (String.eqb (media_type_str (media_type s1)) "");
    try destruct (is_text_annotation (return_annotation fn)); reflexivity.
Qed.

(** X11.  Registering a handler function succeeds exactly when the
    inherited validation passes, the function has a return annotation, the
    annotation is [None] if the status code allows no body, the status code
    is a redirect status code if the annotation is a subclass of
    [Redirect], the function has no [socket] parameter, it has no [data]
    parameter if GET is among the methods, and, for a [head] handler, the
    annotation is [None], [File], [FileResponse] or a subclass. *)
Theorem registration_succeeds_iff (self : HTTPRouteHandler) (fn : Signature) :
  (exists self', HTTPRouteHandler__call__ self fn = Ok self')
  <->
  base_validate_handler_function (set_signature self fn) = None
  /\ return_annotation fn <> SignatureEmpty
  /\ (no_body_status (status_code self) = true ->
      annotation_in_None (return_annotation fn) = true)
  /\ (is_class_and_subclass (return_annotation fn) Redirect = true ->
      is_redirect_status (status_code self) = true)
  /\ ~ In "socket" (parameters fn)
  /\ ~ (In "data" (parameters fn) /\ "GET" ∈ http_methods self)
  /\ (handler_class self = head ->
      annotation_in_None_or_file (return_annotation fn)
      || is_class_and_subclass (return_annotation fn) File
      || is_class_and_subclass (return_annotation fn) FileResponse = true).
Proof.
  pose proof (validate_Ok_iff self fn) as Hvalidate.
  destruct (HTTPRouteHandler_validate_handler_function (set_signature self fn))
    as [s1 | e] eqn:Hval.
  - rewrite (call_of_validate_Ok _ _ _ Hval).
    destruct Hvalidate as [Hconds _].
    destruct (Hconds (ex_intro _ s1 eq_refl)) as (H1 & H2 & H3 & H4 & H5 & H6).
    set (allowed := annotation_in_None_or_file (return_annotation fn)
                    || is_class_and_subclass (return_annotation fn) File
                    || is_class_and_subclass (return_annotation fn) FileResponse).
    split.
    + intros [self' Hok]. repeat split; try assumption.
      intros Hhead. rewrite Hhead in Hok.
      destruct allowed; [reflexivity | discriminate].
    + intros (_ & _ & _ & _ & _ & _ & Hhead).
      destruct (handler_class self); cbn [andb];
        try rewrite (Hhead eq_refl); cbn [negb];
        destruct (String.eqb (media_type_str (media_type s1)) ""); eexists; reflexivity.
  - rewrite (call_raises_of_validate _ _ _ Hval). split.
    + intros [self' Hok]. discriminate.
    + intros (H1 & H2 & H3 & H4 & H5 & H6 & _).
      destruct Hvalidate as [_ Hconds].
      destruct Hconds as [s Hs]; [repeat split; assumption | discriminate].
Qed.

(** X12.  A successful registration changes nothing of the handler but its
    signature and its media type, and leaves it with a media type that is
    not empty.  When no media type was set, the media type becomes TEXT for
    the annotations [str], [bytes], [AnyStr], [Redirect] and [File] and for
    subclasses of [str] and [bytes], and JSON for every other annotation.  A
    media type that was set is kept, except that JSON and HTML become TEXT
    when the annotation is a subclass of [File] or [FileResponse]. *)
Theorem registered_media_type (self self' : HTTPRouteHandler) (fn : Signature) :
  HTTPRouteHandler__call__ self fn = Ok self' ->
  self' = set_media_type (set_signature self fn) (media_type self')
  /\ media_type_str (media_type self') <> ""
  /\ (media_type_str (media_type self) = "" ->
      media_type self'
      = MediaTypeEnum (if is_text_annotation (return_annotation fn) then TEXT else JSON))
  /\ (media_type_str (media_type self) <> "" ->
      media_type self'
      = if (is_class_and_subclass (return_annotation fn) File
            || is_class_and_subclass (return_annotation fn) FileResponse)
           && media_type_in_JSON_HTML (media_type self)
        then MediaTypeEnum TEXT
        else media_type self).
Proof.
  intros Hcall.
  destruct (HTTPRouteHandler_validate_handler_function (set_signature self fn))
    as [s1 | e] eqn:Hval;
    [| rewrite (call_raises_of_validate _ _ _ Hval) in Hcall; discriminate].
  rewrite (call_of_validate_Ok _ _ _ Hval) in Hcall.
  destruct (validate_Ok_result _ _ Hval) as (sig & Hsig & Hs1).
  cbn [set_signature signature media_type] in Hsig, Hs1. injection Hsig as <-.
  destruct (_ && negb _) in Hcall; [discriminate |].
  set (coerce := (is_class_and_subclass (return_annotation fn) File
                  || is_class_and_subclass (return_annotation fn) FileResponse)
                 && media_type_in_JSON_HTML (media_type self)) in *.
  assert (Hempty : media_type_str (media_type self) = "" -> coerce = false).
  { intros Hstr. unfold coerce, media_type_in_JSON_HTML. rewrite Hstr.
    cbn. apply andb_false_r. }
  destruct (String.eqb_spec (media_type_str (media_type self)) "") as [Hstr | Hstr].
  - rewrite (Hempty Hstr) in Hs1. subst s1.
    cbn [set_signature media_type] in Hcall. rewrite Hstr in Hcall. cbn in Hcall.
    injection Hcall as <-. cbn [media_type set_media_type set_signature].
    repeat split.
    + destruct (is_text_annotation (return_annotation fn)); discriminate.
    + intros Hne. contradiction.
  - destruct coerce; subst s1; cbn [set_media_type set_signature media_type] in Hcall.
    + cbn in Hcall. injection Hcall as <-. cbn [media_type set_media_type set_signature].
      repeat split; [discriminate | intros Heq; contradiction].
    + apply String.eqb_neq in Hstr. rewrite Hstr in Hcall. injection Hcall as <-.
      cbn [media_type set_media_type set_signature]. apply String.eqb_neq in Hstr.
      repeat split; [exact Hstr | intros Heq; contradiction].
Qed.

End RegistrationOutcome.

(** ** The session middleware as a whole *)

Section SessionCall.
Context {B E : Type} {session_backend : Session.BaseSessionBackend B E}.

Lemma persists_keeps_session (b b' : B) (sc : Session.Scope)
    (app : list Session.AppAction) (es : list Session.Event) :
  persists b sc app es b' ->
  keeps_session app ->
  Forall (fun s => s = Session.session sc) (stored_sessions es).
Proof.
  unfold keeps_session.
  induction 1 as [| b b' sc s rest es _ _ | b b' sc m rest es _ _ IH
                  | b b1 b' sc m m' rest es _ _ _ IH];
    intros Hkeeps.
  - constructor.
  - apply Forall_cons in Hkeeps as [[] _].
  - apply Forall_cons in Hkeeps as [_ Hkeeps]. cbn. apply IH, Hkeeps.
  - apply Forall_cons in Hkeeps as [_ Hkeeps]. cbn.
    constructor; [reflexivity | apply IH, Hkeeps].
Qed.

Lemma persists_forwarded (b b' : B) (sc : Session.Scope)
    (app : list Session.AppAction) (es : list Session.Event) :
  persists b sc app es b' ->
  Forall2 (fun m m' => Session.msg_type m <> "http.response.start" -> m' = m)
          (Session.sent_messages app) (forwarded es).
Proof.
  induction 1 as [| b b' sc s rest es _ IH | b b' sc m rest es _ _ IH
                  | b b1 b' sc m m' rest es Hstart _ _ IH]; cbn.
  - constructor.
  - exact IH.
  - constructor; [reflexivity | exact IH].
  - constructor; [intros Hother; contradiction | exact IH].
Qed.

(** X14.  The wrapped send hands every message of the application to the
    real send, once and in the order sent; a message that does not start a
    response arrives as it was sent. *)
Theorem messages_forwarded_in_order (app : list Session.AppAction)
    (w w' : Session.World B) :
  Session.run_app Session.wrapped_send app w = inr w' ->
  exists es : list Session.Event,
    Session.trace w' = (Session.trace w ++ es)%list
    /\ Forall2 (fun m m' => Session.msg_type m <> "http.response.start" -> m' = m)
               (Session.sent_messages app) (forwarded es).
Proof.
  intros Hrun. destruct (run_app_persists app w w' Hrun) as (es & Htrace & _ & Hper).
  exists es. split; [exact Htrace | apply (persists_forwarded _ _ _ _ _ Hper)].
Qed.

End SessionCall.

Section SessionDispatch.
Context {B E : Type} {session_backend : Session.BaseSessionBackend B E}
        {abstract_middleware : Session.AbstractMiddleware}.

(** A connection the middleware skips goes to the application as it came:
    the backend is left alone, and the messages reach the real send as the
    application sent them. *)
Lemma skipped_connection_leaves_backend (app : list Session.AppAction)
    (w : Session.World B) :
  Session.should_bypass_middleware (Session.scope w) = true ->
  exists w' : Session.World B,
    Session.SessionMiddleware_wrapped_call app w = inr w'
    /\ Session.backend w' = Session.backend w
    /\ Session.trace w'
       = (Session.trace w ++ map Session.Send (Session.sent_messages app))%list.
Proof.
  unfold Session.SessionMiddleware_wrapped_call. intros ->.
  revert w. induction app as [| [s | m] app IH]; intros w.
  - exists w. cbn. rewrite app_nil_r. repeat split.
  - cbn. destruct (IH (Session.set_session w s)) as (w' & Hrun & Hb & Htrace).
    exists w'. repeat split; assumption.
  - cbn. destruct (IH (Session.connection_send m w)) as (w' & Hrun & Hb & Htrace).
    exists w'. split; [exact Hrun | split; [exact Hb |]].
    rewrite Htrace. cbn. rewrite <- app_assoc. reflexivity.
Qed.

(** X13.  For a connection the middleware does not skip: when the
    middleware returns and the application has left the session of the scope
    alone, the backend loaded a session from the connection first, and every
    call of [store_in_message] was given that session. *)
Theorem stores_receive_loaded_session (app : list Session.AppAction)
    (w w' : Session.World B) :
  Session.should_bypass_middleware (Session.scope w) = false ->
  keeps_session app ->
  Session.SessionMiddleware_wrapped_call app w = inr w' ->
  exists (loaded : Session.ScopeSession) (b : B) (es : list Session.Event),
    Session.load_from_connection (Session.backend w) (Session.scope w) = inr (loaded, b)
    /\ Session.trace w' = (Session.trace w ++ es)%list
    /\ Forall (fun s => s = Some loaded) (stored_sessions es).
Proof.
  unfold Session.SessionMiddleware_wrapped_call. intros -> Hkeeps Hcall.
  destruct (SessionMiddleware_call_persists app w w' Hcall)
    as (loaded & b & es & Hload & Htrace & Hper).
  exists loaded, b, es. repeat split; [exact Hload | exact Htrace |].
  apply (persists_keeps_session _ _ _ _ _ Hper Hkeeps).
Qed.

End SessionDispatch.

(** ** The further properties at sample inputs *)

(** The handler's documentation-only header hides the router's header. *)
Lemma normalized_headers_of_resolved_witness :
  fst (_normalize_headers [] (resolve_response_headers sample_header_handler))
    !! "x-token" = None.
Proof.
  exact (eq_trans
           (normalized_headers_of_resolved sample_header_handler [] "x-token" eq_refl)
           eq_refl).
Defined.

(** A documentation-only local cookie removes the layered cookie with its
    key. *)
Lemma filter_cookies_local_first_witness :
  In (sample_cookie "b" "1")
     (fst (_filter_cookies [] [documentation_cookie "a"]
                           [sample_cookie "a" "1"; sample_cookie "b" "1"]))
  /\ ~ In (sample_cookie "a" "1")
          (fst (_filter_cookies [] [documentation_cookie "a"]
                                [sample_cookie "a" "1"; sample_cookie "b" "1"])).
Proof.
  destruct (filter_cookies_local_first [] [documentation_cookie "a"]
              [sample_cookie "a" "1"; sample_cookie "b" "1"]) as [_ Hmem].
  - apply (bool_decide_unpack _). vm_compute. exact I.
  - apply (bool_decide_unpack _). vm_compute. exact I.
  - reflexivity.
  - split.
    + apply Hmem. split; [reflexivity |]. right. split.
      * right. left. reflexivity.
      * cbn. intros [Heq | []]. discriminate.
    + intros Hin. apply Hmem in Hin as [_ [Hin | [_ Hno]]].
      * destruct Hin as [Heq | []]. discriminate.
      * apply Hno. left. reflexivity.
Defined.

(** The second call has another value for the cookie and gets the value of
    the first call. *)
Lemma filter_cookies_served_from_cache_witness :
  fst (_filter_cookies (snd (_filter_cookies [] [sample_cookie "a" "1"] []))
                       [sample_cookie "a" "2"] [])
  = [sample_cookie "a" "1"].
Proof.
  exact (eq_trans
           (filter_cookies_served_from_cache [] [sample_cookie "a" "1"] []
              [sample_cookie "a" "2"] [] eq_refl eq_refl)
           eq_refl).
Defined.

Lemma response_cookie_precedence_witness :
  In (sample_cookie "a" "2")
     (fst (_filter_cookies [] (frozenset [sample_cookie "b" "9"])
                           (resolve_response_cookies sample_cookie_handler)))
  /\ ~ In (sample_cookie "b" "1")
          (fst (_filter_cookies [] (frozenset [sample_cookie "b" "9"])
                                (resolve_response_cookies sample_cookie_handler))).
Proof.
  pose proof (response_cookie_precedence sample_cookie_handler []
                [sample_cookie "b" "9"] eq_refl) as Hmem.
  split.
  - apply Hmem. split; [reflexivity |]. right. split; [| reflexivity].
    cbn. intros [Heq | []]. discriminate.
  - intros Hin. apply Hmem in Hin as [_ [Hfind | [Hno _]]].
    + cbn in Hfind. discriminate.
    + apply Hno. left. reflexivity.
Defined.

Lemma response_handler_closes_over_innermost_hook_witness :
  exists (handler : FunctionObject) (self' : HTTPRouteHandler) (next : nat),
    @resolve_response_handler sample_framework sample_after_request_handler 0%nat
    = Ok (handler, self', next)
    /\ handler_after_request (code handler) = Some (AsyncCallableOf 2%nat)
    /\ innermost_hook after_request (ownership_layers sample_after_request_handler)
                      (handler_after_request (code handler))
    /\ handler_cookies (code handler) = resolve_response_cookies sample_after_request_handler.
Proof.
  eexists. eexists. eexists. split; [reflexivity |]. split; [reflexivity |].
  apply (@response_handler_closes_over_innermost_hook sample_framework
           sample_after_request_handler _ _ 0%nat _ eq_refl eq_refl).
Defined.

Lemma semantic_decorator_fixes_method_witness :
  match new_handler delete (sample_args None None) with
  | Ok self =>
      ~ In "http_method" (arg_kwargs (sample_args None None))
      /\ handler_class self = delete
      /\ http_methods self = {[HttpMethod_value DELETE]}
  | Raise e =>
      In "http_method" (arg_kwargs (sample_args None None))
      /\ e = ImproperlyConfiguredException MSG_SEMANTIC_ROUTE_HANDLER_WITH_HTTP
  end.
Proof.
  exact (semantic_decorator_fixes_method delete DELETE (sample_args None None) eq_refl).
Defined.

Lemma normalize_http_method_by_names_witness :
  _normalize_http_method (MethodSeq (map MethodStr (elements ({["GET"; "POST"]} : gset string))))
  = Ok {["GET"; "POST"]}.
Proof.
  refine (proj2 (normalize_http_method_by_names
                   (MethodSeq [MethodStr "post"; MethodEnum GET; MethodStr "Post"])
                   {["GET"; "POST"]} _)).
  vm_compute. reflexivity.
Defined.

(** Without a media type, a handler annotated [FileResponse] gets JSON. *)
Lemma registered_media_type_witness :
  exists self' : HTTPRouteHandler,
    @HTTPRouteHandler__call__ sample_framework (fresh_handler get "GET" 200)
      (sample_signature (AnnClass class_FileResponse)) = Ok self'
    /\ media_type self' = MediaTypeEnum JSON.
Proof.
  eexists. split; [vm_compute; reflexivity |].
  refine (proj1 (proj2 (proj2
            (@registered_media_type sample_framework (fresh_handler get "GET" 200) _
               (sample_signature (AnnClass class_FileResponse)) _))) _).
  - vm_compute. reflexivity.
  - reflexivity.
Defined.

Lemma stores_receive_loaded_session_witness :
  exists w' : Session.World nat,
    Session.SessionMiddleware_wrapped_call (session_backend := counting_backend)
      (abstract_middleware := sample_middleware) sample_plain_app sample_world = inr w'
    /\ exists (loaded : Session.ScopeSession) (b : nat) (es : list Session.Event),
         Session.load_from_connection (BaseSessionBackend := counting_backend)
           (Session.backend sample_world) (Session.scope sample_world) = inr (loaded, b)
         /\ Session.trace w' = (Session.trace sample_world ++ es)%list
         /\ Forall (fun s => s = Some loaded) (stored_sessions es).
Proof.
  eexists. split; [vm_compute; reflexivity |].
  apply (stores_receive_loaded_session (session_backend := counting_backend)
           (abstract_middleware := sample_middleware) sample_plain_app sample_world).
  - reflexivity.
  - repeat constructor.
  - vm_compute. reflexivity.
Defined.

Lemma messages_forwarded_in_order_witness :
  exists w' : Session.World nat,
    Session.run_app (Session.wrapped_send (session_backend := counting_backend))
      sample_app sample_world = inr w'
    /\ exists es : list Session.Event,
         Session.trace w' = (Session.trace sample_world ++ es)%list
         /\ Forall2 (fun m m' => Session.msg_type m <> "http.response.start" -> m' = m)
                    (Session.sent_messages sample_app) (forwarded es).
Proof.
  eexists. split; [vm_compute; reflexivity |].
  apply (messages_forwarded_in_order (session_backend := counting_backend)
           sample_app sample_world).
  vm_compute. reflexivity.
Defined.

(** ** Memoised hooks and later changes *)

(** X15.  Hooks are resolved once: after a first call, the resolvers of
    [before_request] and [after_response] return the hook found then and
    leave the handler as it is, whatever the layers above the handler have
    become. *)
Theorem resolved_hooks_ignore_later_owners (self : HTTPRouteHandler)
    (owners : list Layer) :
  resolve_before_request (set_owner_layers (snd (resolve_before_request self)) owners)
  = (fst (resolve_before_request self),
     set_owner_layers (snd (resolve_before_request self)) owners)
  /\ resolve_after_response (set_owner_layers (snd (resolve_after_response self)) owners)
     = (fst (resolve_after_response self),
        set_owner_layers (snd (resolve_after_response self)) owners).
Proof.
  unfold resolve_before_request, resolve_after_response.
  destruct (_resolved_before_request self) eqn:Hbefore,
           (_resolved_after_response self) eqn:Hafter;
    cbn; rewrite ?Hbefore, ?Hafter; split; reflexivity.
Qed.

(** ** What the semantic decorators imply at registration *)

Section DecoratorRules.
Context {framework : Framework}.

(** X16.  A handler made by the [delete] decorator without a status code
    has status code 204, so registering a function whose return annotation
    is not [None] fails with an [ImproperlyConfiguredException]. *)
Theorem delete_handler_returns_None (a : InitArgs) (self : HTTPRouteHandler)
    (fn : Signature) :
  arg_status_code a = None ->
  new_handler delete a = Ok self ->
  annotation_in_None (return_annotation fn) = false ->
  base_validate_handler_function (set_signature self fn) = None ->
  status_code self = 204
  /\ exists detail,
       HTTPRouteHandler__call__ self fn = Raise (ImproperlyConfiguredException detail).
Proof.
  intros Hstatus Hnew Hann Hbase.
  assert (Hcode : status_code self = 204).
  { cbn [new_handler] in Hnew. unfold semantic__init__ in Hnew.
    destruct (existsb _ _); [discriminate |].
    unfold HTTPRouteHandler__init__ in Hnew.
    cbn [http_method_truthy negb from_option id] in Hnew.
    rewrite normalize_enum_member in Hnew. cbn [mbind Result_bind] in Hnew.
    injection Hnew as <-. cbn [status_code]. rewrite Hstatus. reflexivity. }
  split; [exact Hcode |].
  apply no_body_status_raises; [rewrite Hcode; reflexivity | exact Hann | exact Hbase].
Qed.

(** X17.  A handler made by the [get] decorator never takes a function with
    a [data] parameter: the registration fails. *)
Theorem get_handler_takes_no_data (a : InitArgs) (self : HTTPRouteHandler)
    (fn : Signature) :
  new_handler get a = Ok self ->
  In "data" (parameters fn) ->
  exists e, HTTPRouteHandler__call__ self fn = Raise e.
Proof.
  intros Hnew Hdata.
  assert (Hmethods : "GET" ∈ http_methods self).
  { cbn [new_handler] in Hnew. unfold semantic__init__ in Hnew.
    destruct (existsb _ _); [discriminate |].
    unfold HTTPRouteHandler__init__ in Hnew.
    cbn [http_method_truthy negb from_option id] in Hnew.
    rewrite normalize_enum_member in Hnew. cbn [mbind Result_bind] in Hnew.
    injection Hnew as <-. cbn [http_methods HttpMethod_value].
    apply elem_of_singleton. reflexivity. }
  destruct (HTTPRouteHandler_validate_handler_function (set_signature self fn))
    as [s1 | e] eqn:Hval.
  - exfalso. destruct (proj1 (validate_Ok_iff self fn) (ex_intro _ s1 Hval))
      as (_ & _ & _ & _ & _ & Hno).
    apply Hno. split; assumption.
  - exists e. apply call_raises_of_validate, Hval.
Qed.

End DecoratorRules.

Lemma delete_handler_returns_None_witness :
  status_code (fresh_handler delete "DELETE" 204) = 204
  /\ exists detail,
       @HTTPRouteHandler__call__ sample_framework (fresh_handler delete "DELETE" 204)
         (sample_signature (AnnClass class_str))
       = Raise (ImproperlyConfiguredException detail).
Proof.
  apply (@delete_handler_returns_None sample_framework (sample_args None None)
           (fresh_handler delete "DELETE" 204) (sample_signature (AnnClass class_str))).
  - reflexivity.
  - vm_compute. reflexivity.
  - reflexivity.
  - reflexivity.
Defined.

Lemma get_handler_takes_no_data_witness :
  exists e,
    @HTTPRouteHandler__call__ sample_framework (fresh_handler get "GET" 200)
      {| return_annotation := AnnNone; parameters := ["data"] |}
    = Raise e.
Proof.
  apply (@get_handler_takes_no_data sample_framework (sample_args None None)
           (fresh_handler get "GET" 200)
           {| return_annotation := AnnNone; parameters := ["data"] |}).
  - vm_compute. reflexivity.
  - left. reflexivity.
Defined.
